(** * Weather gateway (server.js): a shallow embedding and its contract

    The program is a stateless translator in front of the National Weather
    Service API.  It exposes two operations (alerts for a state, forecast for
    a coordinate) on three surfaces: the Express routes, the MCP tools and the
    MCP [weather-data] resource.  Every handler is modelled here as a function
    in a small state monad that threads the upstream provider and records each
    request handed to [fetch]. *)

From Stdlib Require Import List String Ascii Bool Arith ZArith Lia.
From Stdlib Require Import Floats.SpecFloat.
From Stdlib Require Import Decimal DecimalString.
Import ListNotations.

Set Warnings "-register-all".
Open Scope string_scope.

(* ===================================================================== *)
(** ** JavaScript values *)
(* ===================================================================== *)

(** A Number is an IEEE-754 double; [spec_float] keeps its sign, mantissa and
    exponent, so that a finite value is exactly [(-1)^s * m * 2^e]. *)
Definition number := spec_float.

(** The values that [response.json()] can produce.  Objects keep their
    members in order; [undefined] is the [None] of [option value]. *)
Inductive value : Type :=
| VNull
| VBool (b : bool)
| VNum (x : number)
| VStr (s : string)
| VArr (items : list value)
| VObj (members : list (string * value)).

(** ToBoolean. *)
Definition truthy (v : value) : bool :=
  match v with
  | VNull => false
  | VBool b => b
  | VNum (S754_zero _) => false
  | VNum S754_nan => false
  | VNum _ => true
  | VStr EmptyString => false
  | VStr _ => true
  | VArr _ => true
  | VObj _ => true
  end.

Definition truthy_opt (o : option value) : bool :=
  match o with
  | Some v => truthy v
  | None => false
  end.

Fixpoint assoc {A : Type} (k : string) (l : list (string * A)) : option A :=
  match l with
  | [] => None
  | (k', v) :: l' => if String.eqb k k' then Some v else assoc k l'
  end.

(** [v.k] for a key that no prototype defines ([properties], [forecast],
    [features], [latitude], ...): own members of an object, [undefined] on
    every other non-nullish value. *)
Definition get_prop (k : string) (v : value) : option value :=
  match v with
  | VObj members => assoc k members
  | _ => None
  end.

(** [o?.k] where [o] may be [undefined] or [null]. *)
Definition opt_chain (k : string) (o : option value) : option value :=
  match o with
  | None => None
  | Some VNull => None
  | Some v => get_prop k v
  end.

(* ===================================================================== *)
(** ** Numbers: comparison and [toFixed] *)
(* ===================================================================== *)

Definition signed (s : bool) (m : positive) : Z :=
  if s then Z.neg m else Z.pos m.

(** The integer literal [z] as a Number. *)
Definition num (z : Z) : number :=
  match z with
  | Z0 => S754_zero false
  | Z.pos p => S754_finite false p 0
  | Z.neg p => S754_finite true p 0
  end.

(** Exact comparison of [z1 * 2^e1] with [z2 * 2^e2]. *)
Definition fin_compare (z1 e1 z2 e2 : Z) : comparison :=
  let e0 := Z.min e1 e2 in
  Z.compare (z1 * 2 ^ (e1 - e0)) (z2 * 2 ^ (e2 - e0)).

Definition fin_parts (x : number) : option (Z * Z) :=
  match x with
  | S754_zero _ => Some (0, 0)%Z
  | S754_finite s m e => Some (signed s m, e)
  | _ => None
  end.

(** The [<] of the language on Numbers: false as soon as one side is NaN. *)
Definition js_lt (x y : number) : bool :=
  match x, y with
  | S754_nan, _ | _, S754_nan => false
  | S754_infinity sx, S754_infinity sy => sx && negb sy
  | S754_infinity sx, _ => sx
  | _, S754_infinity sy => negb sy
  | _, _ =>
      match fin_parts x, fin_parts y with
      | Some (z1, e1), Some (z2, e2) =>
          match fin_compare z1 e1 z2 e2 with Lt => true | _ => false end
      | _, _ => false
      end
  end.

Definition js_gt (x y : number) : bool := js_lt y x.

Definition is_nan (x : number) : bool :=
  match x with
  | S754_nan => true
  | _ => false
  end.

(** [x] is a Number of the interval [[lo, hi]]. *)
Definition within (lo hi : Z) (x : number) : bool :=
  negb (is_nan x) && negb (js_lt x (num lo)) && negb (js_gt x (num hi)).

Definition is_digit (c : ascii) : bool :=
  (48 <=? nat_of_ascii c)%nat && (nat_of_ascii c <=? 57)%nat.

Fixpoint zeros (n : nat) : string :=
  match n with
  | O => EmptyString
  | S n' => String "0" (zeros n')
  end.

Fixpoint take (n : nat) (s : string) : string :=
  match n, s with
  | S n', String c s' => String c (take n' s')
  | _, _ => EmptyString
  end.

Fixpoint drop (n : nat) (s : string) : string :=
  match n, s with
  | S n', String _ s' => drop n' s'
  | _, _ => s
  end.

(** Step 11.a of Number.prototype.toFixed with 4 fraction digits, on the
    magnitude [m * 2^e]: the integer [n] for which [n / 10^4] is closest to
    it, the larger one on a tie. *)
Definition nearest_scaled (m : positive) (e : Z) : Z :=
  if (0 <=? e)%Z then Z.pos m * 2 ^ e * 10000
  else (2 * Z.pos m * 10000 + 2 ^ (- e)) / (2 * 2 ^ (- e)).

(** Steps 11.b and 11.c: the digits of [n], left-padded with zeros to five
    characters, with the point before the last four. *)
Definition fixed_digits (n : Z) : string :=
  let m := NilZero.string_of_uint (N.to_uint (Z.to_N n)) in
  let k := String.length m in
  let m := if (k <=? 4)%nat then zeros (5 - k) ++ m else m in
  let k := String.length m in
  take (k - 4) m ++ "." ++ drop (k - 4) m.

(** Whether the magnitude [m * 2^e] is at least [10^21]. *)
Definition at_least_1e21 (m : positive) (e : Z) : bool :=
  match fin_compare (Z.pos m) e (10 ^ 21) 0 with
  | Lt => false
  | _ => true
  end.

(* ===================================================================== *)
(** ** Strings *)
(* ===================================================================== *)

(** A string is held as the bytes of its UTF-8 encoding, so that text of
    the ASCII range is one character per byte.  The case mapping written
    out below is the one of the language on that range; it is applied to
    text that is ASCII throughout, and the platform is asked for the rest
    (see [toUpperCase] further down). *)
Definition is_lower (c : ascii) : bool :=
  (97 <=? nat_of_ascii c)%nat && (nat_of_ascii c <=? 122)%nat.
Definition is_upper (c : ascii) : bool :=
  (65 <=? nat_of_ascii c)%nat && (nat_of_ascii c <=? 90)%nat.

Definition to_upper (c : ascii) : ascii :=
  if is_lower c then ascii_of_nat (nat_of_ascii c - 32) else c.

Definition to_lower (c : ascii) : ascii :=
  if is_upper c then ascii_of_nat (nat_of_ascii c + 32) else c.

Fixpoint ascii_toUpperCase (s : string) : string :=
  match s with
  | EmptyString => EmptyString
  | String c s' => String (to_upper c) (ascii_toUpperCase s')
  end.

Fixpoint ascii_toLowerCase (s : string) : string :=
  match s with
  | EmptyString => EmptyString
  | String c s' => String (to_lower c) (ascii_toLowerCase s')
  end.

(** [s.length]: the number of UTF-16 code units of the text, read off its
    UTF-8 bytes.  A character of one, two or three bytes is one unit, a
    character of four bytes is two (a surrogate pair); the bytes that
    continue a character count for nothing. *)
Fixpoint utf16_length (s : string) : nat :=
  match s with
  | EmptyString => 0
  | String c s' =>
      let b := nat_of_ascii c in
      (if (b <? 128)%nat then 1
       else if (b <? 192)%nat then 0
       else if (b <? 240)%nat then 1
       else 2) + utf16_length s'
  end.

Fixpoint ascii_only (s : string) : bool :=
  match s with
  | EmptyString => true
  | String c s' => (nat_of_ascii c <? 128)%nat && ascii_only s'
  end.

(** Two characters that differ at most by the case of an ASCII letter. *)
Definition same_letter (c d : ascii) : bool :=
  Ascii.eqb c d
  || (is_lower c && Nat.eqb (nat_of_ascii c) (nat_of_ascii d + 32))
  || (is_lower d && Nat.eqb (nat_of_ascii d) (nat_of_ascii c + 32)).

(** [recased s t]: [t] is [s] with the case of some letters changed. *)
Fixpoint recased (s t : string) : bool :=
  match s, t with
  | EmptyString, EmptyString => true
  | String c s', String d t' => same_letter c d && recased s' t'
  | _, _ => false
  end.

(** *** Recognising a coordinate written with four decimals *)

Fixpoint all_digits (s : string) : bool :=
  match s with
  | EmptyString => true
  | String c s' => is_digit c && all_digits s'
  end.

Definition is_empty (s : string) : bool :=
  match s with
  | EmptyString => true
  | _ => false
  end.

(** At least one digit, a point, four digits. *)
Definition is_unsigned_fixed4 (s : string) : bool :=
  let k := String.length s in
  let a := take (k - 5) s in
  negb (is_empty a) && all_digits a &&
  match drop (k - 5) s with
  | String "." b => all_digits b && Nat.eqb (String.length b) 4
  | _ => false
  end.

(** The same after an optional minus sign. *)
Definition is_fixed4 (s : string) : bool :=
  match s with
  | String c r => if Ascii.eqb c "-" then is_unsigned_fixed4 r
                  else is_unsigned_fixed4 s
  | EmptyString => false
  end.

Fixpoint comma_free (s : string) : bool :=
  match s with
  | EmptyString => true
  | String c s' => negb (Ascii.eqb c ",") && comma_free s'
  end.

Fixpoint strip_prefix (p s : string) : option string :=
  match p, s with
  | EmptyString, _ => Some s
  | String c p', String d s' => if Ascii.eqb c d then strip_prefix p' s' else None
  | String _ _, EmptyString => None
  end.

(** The text before and after the first comma. *)
Fixpoint split_comma (s : string) : option (string * string) :=
  match s with
  | EmptyString => None
  | String c s' =>
      if Ascii.eqb c "," then Some (EmptyString, s')
      else match split_comma s' with
           | Some (a, b) => Some (String c a, b)
           | None => None
           end
  end.

(* ===================================================================== *)
(** ** What [new URL] reads in a string *)
(* ===================================================================== *)

(** The steps of the URL parser (without base) that decide the search
    parameters of a string: the clean-up of the input, the scheme, the
    query, and the parser of [application/x-www-form-urlencoded] text. *)

Definition is_c0_or_space (c : ascii) : bool := (nat_of_ascii c <=? 32)%nat.

Definition is_tab_or_newline (c : ascii) : bool :=
  Nat.eqb (nat_of_ascii c) 9 || Nat.eqb (nat_of_ascii c) 10
  || Nat.eqb (nat_of_ascii c) 13.

Fixpoint strip_leading (s : string) : string :=
  match s with
  | EmptyString => EmptyString
  | String c s' => if is_c0_or_space c then strip_leading s' else s
  end.

Fixpoint strip_trailing (s : string) : string :=
  match s with
  | EmptyString => EmptyString
  | String c s' =>
      match strip_trailing s' with
      | EmptyString => if is_c0_or_space c then EmptyString else String c EmptyString
      | t => String c t
      end
  end.

Fixpoint remove_tab_newline (s : string) : string :=
  match s with
  | EmptyString => EmptyString
  | String c s' =>
      if is_tab_or_newline c then remove_tab_newline s'
      else String c (remove_tab_newline s')
  end.

(** The input as the parser sees it: leading and trailing C0 controls and
    spaces removed, then every tab and newline. *)
Definition url_input (s : string) : string :=
  remove_tab_newline (strip_trailing (strip_leading s)).

Definition is_alpha (c : ascii) : bool := is_lower c || is_upper c.

Definition is_scheme_char (c : ascii) : bool :=
  is_alpha c || is_digit c
  || Ascii.eqb c "+" || Ascii.eqb c "-" || Ascii.eqb c ".".

(** Scheme state: letters, digits, [+], [-] and [.] up to the colon. *)
Fixpoint scheme_state (s : string) : option (string * string) :=
  match s with
  | EmptyString => None
  | String c s' =>
      if Ascii.eqb c ":" then Some (EmptyString, s')
      else if is_scheme_char c then
        match scheme_state s' with
        | Some (scheme, rest) => Some (String (to_lower c) scheme, rest)
        | None => None
        end
      else None
  end.

(** Scheme start state: the scheme begins with a letter.  A string without
    scheme is no URL when there is no base. *)
Definition split_scheme (s : string) : option (string * string) :=
  match s with
  | EmptyString => None
  | String c s' =>
      if is_alpha c then
        match scheme_state s' with
        | Some (scheme, rest) => Some (String (to_lower c) scheme, rest)
        | None => None
        end
      else None
  end.

Definition is_special_scheme (scheme : string) : bool :=
  String.eqb scheme "ftp" || String.eqb scheme "file"
  || String.eqb scheme "http" || String.eqb scheme "https"
  || String.eqb scheme "ws" || String.eqb scheme "wss".

Definition starts_with_two_slashes (s : string) : bool :=
  match s with
  | String "/" (String "/" _) => true
  | _ => false
  end.

(** The text before the first [x], and the text after it if there is one. *)
Fixpoint before_char (x : ascii) (s : string) : string :=
  match s with
  | EmptyString => EmptyString
  | String c s' => if Ascii.eqb c x then EmptyString else String c (before_char x s')
  end.

Fixpoint after_char (x : ascii) (s : string) : option string :=
  match s with
  | EmptyString => None
  | String c s' => if Ascii.eqb c x then Some s' else after_char x s'
  end.

(** The query: what follows the first [?], up to the first [#]. *)
Definition url_query (s : string) : option string :=
  after_char "?" (before_char "#" s).

Fixpoint split_on (x : ascii) (s : string) : list string :=
  match s with
  | EmptyString => [EmptyString]
  | String c s' =>
      if Ascii.eqb c x then EmptyString :: split_on x s'
      else match split_on x s' with
           | [] => [String c EmptyString]
           | t :: l => String c t :: l
           end
  end.

Fixpoint plus_to_space (s : string) : string :=
  match s with
  | EmptyString => EmptyString
  | String c s' =>
      String (if Ascii.eqb c "+" then " "%char else c) (plus_to_space s')
  end.

Definition hex_value (c : ascii) : option nat :=
  let b := nat_of_ascii c in
  if is_digit c then Some (b - 48)
  else if (65 <=? b)%nat && (b <=? 70)%nat then Some (b - 55)
  else if (97 <=? b)%nat && (b <=? 102)%nat then Some (b - 87)
  else None.

(** Percent-decoding: [%] and two hexadecimal digits give one byte, any
    other [%] stays. *)
Fixpoint percent_decode (s : string) : string :=
  match s with
  | EmptyString => EmptyString
  | String c t =>
      if Ascii.eqb c "%" then
        match t with
        | String a (String b s') =>
            match hex_value a, hex_value b with
            | Some h, Some l => String (ascii_of_nat (16 * h + l)) (percent_decode s')
            | _, _ => String c (percent_decode t)
            end
        | _ => String c (percent_decode t)
        end
      else String c (percent_decode t)
  end.

(** The decoder of UTF-8 with replacement: where the bytes are no UTF-8,
    the character U+FFFD takes their place. *)
Definition replacement : string :=
  String (ascii_of_nat 239) (String (ascii_of_nat 191)
    (String (ascii_of_nat 189) EmptyString)).

(** What a byte starts when no character is pending: itself (ASCII), a
    character of [needed] more bytes whose next byte lies in [lower, upper],
    or nothing valid. *)
Inductive utf8_lead : Type :=
| LeadAscii
| LeadOf (needed lower upper : nat)
| LeadInvalid.

Definition utf8_lead_of (b : nat) : utf8_lead :=
  if (b <? 128)%nat then LeadAscii
  else if (b <? 194)%nat then LeadInvalid
  else if (b <? 224)%nat then LeadOf 1 128 191
  else if Nat.eqb b 224 then LeadOf 2 160 191
  else if Nat.eqb b 237 then LeadOf 2 128 159
  else if (b <? 240)%nat then LeadOf 2 128 191
  else if Nat.eqb b 240 then LeadOf 3 144 191
  else if (b <? 244)%nat then LeadOf 3 128 191
  else if Nat.eqb b 244 then LeadOf 3 128 143
  else LeadInvalid.

(** [pending] holds the bytes of the character being read ([None]: no
    character is pending), [needed], [lower] and [upper] what it still
    expects. *)
Fixpoint utf8_decode (pending : option string) (needed lower upper : nat)
    (s : string) : string :=
  match s with
  | EmptyString =>
      match pending with
      | None => EmptyString
      | Some _ => replacement
      end
  | String c s' =>
      let b := nat_of_ascii c in
      let fresh :=
        match utf8_lead_of b with
        | LeadAscii => String c (utf8_decode None 0 128 191 s')
        | LeadOf n lo hi => utf8_decode (Some (String c EmptyString)) n lo hi s'
        | LeadInvalid => replacement ++ utf8_decode None 0 128 191 s'
        end in
      match pending with
      | None => fresh
      | Some seen =>
          if (lower <=? b)%nat && (b <=? upper)%nat then
            if Nat.eqb needed 1
            then seen ++ String c (utf8_decode None 0 128 191 s')
            else utf8_decode (Some (seen ++ String c EmptyString))
                   (needed - 1) 128 191 s'
          else replacement ++ fresh
      end
  end.

Definition utf8_decode_lossy (s : string) : string :=
  utf8_decode None 0 128 191 s.

Definition form_decode (s : string) : string :=
  utf8_decode_lossy (percent_decode (plus_to_space s)).

(** The parser of [application/x-www-form-urlencoded]: the sequences
    between [&], the empty ones left out, each cut at its first [=]. *)
Definition form_urlencoded_parse (query : string) : list (string * string) :=
  flat_map
    (fun bytes : string =>
       if is_empty bytes then []
       else
         let name := before_char "=" bytes in
         let value := match after_char "=" bytes with
                      | Some v => v
                      | None => EmptyString
                      end in
         [(form_decode name, form_decode value)])
    (split_on "&" query).

(** A parsed URL, as far as the program reads it. *)
Record URL : Type := {
  searchParams : list (string * string)
}.

Definition url_of_input (input : string) : URL :=
  {| searchParams :=
       match url_query input with
       | Some query => form_urlencoded_parse query
       | None => []
       end |}.

(* ===================================================================== *)
(** ** The upstream provider and the runtime *)
(* ===================================================================== *)

Definition NWS_API_BASE : string := "https://api.weather.gov".
Definition USER_AGENT : string := "weather-app/1.0".

(** What is handed to [fetch]: the first argument as the code passes it (a
    string for the URLs the program builds, whatever JSON the provider put
    in [properties.forecast] for the second step) and the headers. *)
Record request : Type := {
  req_url : value;
  req_headers : list (string * string)
}.

(** What [fetch] followed by [response.json()] can do. *)
Inductive fetch_outcome : Type :=
| Rejected
    (* the promise of fetch rejects: DNS, connection, unusable URL *)
| Responded (status : nat) (body : option value)
    (* a response arrived; [body] is [None] when response.json() rejects *).

(** [response.ok] *)
Definition ok (status : nat) : bool :=
  (200 <=? status)%nat && (status <=? 299)%nat.

(** What the program takes from its platform: the provider behind [fetch],
    which may answer the same request differently over time; the two
    conversions to text that the handlers apply to Numbers and documents;
    the upper-case form of text that is not ASCII throughout; and whether a
    string with an authority (host, port) or a special scheme is a URL. *)
Class Runtime : Type := {
  World : Type;
  fetch : World -> request -> fetch_outcome * World;
  Number_toString : number -> string;
  JSON_stringify : value -> string;
  String_toUpperCase : string -> string;
  URL_canParse : string -> bool
}.

(** String.prototype.toUpperCase. *)
Definition toUpperCase `{Runtime} (s : string) : string :=
  if ascii_only s then ascii_toUpperCase s else String_toUpperCase s.

(** [new URL(uri)]: [None] when it throws its TypeError.  A string without
    scheme is never a URL.  With a scheme that is not special and no
    authority after it, the rest is a path, a query and a fragment, which
    always parse.  Otherwise the host and the port decide, and that is left
    to the platform. *)
Definition new_URL `{Runtime} (uri : string) : option URL :=
  let input := url_input uri in
  match split_scheme input with
  | None => None
  | Some (scheme, rest) =>
      if (is_special_scheme scheme || starts_with_two_slashes rest)
         && negb (URL_canParse uri)
      then None
      else Some (url_of_input input)
  end.

(** Number.prototype.toFixed(4). *)
Definition toFixed4 `{Runtime} (x : number) : string :=
  match x with
  | S754_zero _ => fixed_digits 0
  | S754_finite s m e =>
      let sign := if s then "-" else EmptyString in
      if at_least_1e21 m e
      then sign ++ Number_toString (S754_finite false m e)
      else sign ++ fixed_digits (nearest_scaled m e)
  | _ => Number_toString x
  end.

(** *** The monad of the handlers

    A handler runs against the provider and appends every request it starts
    to the record of network calls. *)
Record net `{Runtime} : Type := {
  world : World;
  calls : list request
}.

Definition M `{Runtime} (A : Type) : Type := net -> A * net.

Definition ret `{Runtime} {A : Type} (a : A) : M A := fun s => (a, s).

Definition bind `{Runtime} {A B : Type} (m : M A) (k : A -> M B) : M B :=
  fun s => let (a, s') := m s in k a s'.

Notation "x <- m ;; k" := (bind m (fun x => k))
  (at level 61, m at next level, right associativity).

Definition do_fetch `{Runtime} (r : request) : M fetch_outcome :=
  fun s =>
    let (o, w) := fetch (world s) r in
    (o, {| world := w; calls := calls s ++ [r] |}).

Definition start `{Runtime} (w : World) : net := {| world := w; calls := [] |}.

(* ===================================================================== *)
(** ** The program *)
(* ===================================================================== *)

Section Server.
Context `{RT : Runtime}.

(** [makeNWSRequest]: one GET with the two fixed headers.  The [try] covers
    the rejection of [fetch], the [throw] on a response that is not ok and
    the rejection of [response.json()]; the [catch] logs and returns [null]. *)
Definition nws_headers : list (string * string) :=
  [("User-Agent", USER_AGENT); ("Accept", "application/geo+json")].

Definition nws_request (url : value) : request :=
  {| req_url := url; req_headers := nws_headers |}.

Definition nws_result (o : fetch_outcome) : value :=
  match o with
  | Rejected => VNull
  | Responded status body =>
      if negb (ok status) then VNull
      else match body with
           | Some v => v
           | None => VNull
           end
  end.

Definition makeNWSRequest (url : value) : M value :=
  o <- do_fetch (nws_request url) ;;
  ret (nws_result o).

(** [pointsData.properties?.forecast] *)
Definition forecast_locator (pointsData : value) : option value :=
  opt_chain "forecast" (get_prop "properties" pointsData).

(** *** Express routes *)

Record http_response : Type := {
  status : nat;
  body : value
}.

(** [res.json(v)] with the default status, and [res.status(n).json(v)]. *)
Definition res_json (v : value) : http_response :=
  {| status := 200; body := v |}.
Definition res_status_json (n : nat) (v : value) : http_response :=
  {| status := n; body := v |}.

Definition error_body (message : string) : value :=
  VObj [("error", VStr message)].

(** A member of [req.query]: text, or the arrays and objects that the query
    parser builds from repeated and bracketed keys. *)
Inductive qvalue : Type :=
| QStr (s : string)
| QArr (items : list qvalue)
| QObj (members : list (string * qvalue)).

Definition q_truthy (q : option qvalue) : bool :=
  match q with
  | None => false
  | Some (QStr EmptyString) => false
  | Some _ => true
  end.

(** The text a template literal gives for a member of the query. *)
Fixpoint q_text (q : qvalue) : string :=
  match q with
  | QStr s => s
  | QArr items =>
      (fix join (l : list qvalue) : string :=
         match l with
         | [] => EmptyString
         | [x] => q_text x
         | x :: l' => q_text x ++ "," ++ join l'
         end) items
  | QObj _ => "[object Object]"
  end.

Definition q_template (q : option qvalue) : string :=
  match q with
  | None => "undefined"
  | Some v => q_text v
  end.

(** [app.get('/alerts/:state')]; [state] is [req.params.state].  Nothing
    in the body of the [try] throws once [makeNWSRequest] has caught the
    failures of the fetch, so the [catch] of the routes has no run here. *)
Definition app_get_alerts (state : string) : M http_response :=
  let state := toUpperCase state in
  let alertsUrl := NWS_API_BASE ++ "/alerts?area=" ++ state in
  alertsData <- makeNWSRequest (VStr alertsUrl) ;;
  if negb (truthy alertsData)
  then ret (res_status_json 500 (error_body "Failed to retrieve alerts data"))
  else ret (res_json alertsData).

(** [app.get('/forecast')]; [query] is [req.query]. *)
Definition app_get_forecast (query : list (string * qvalue)) : M http_response :=
  let latitude := assoc "latitude" query in
  let longitude := assoc "longitude" query in
  if negb (q_truthy latitude) || negb (q_truthy longitude)
  then ret (res_status_json 400 (error_body "Latitude and longitude are required"))
  else
    let pointsUrl :=
      NWS_API_BASE ++ "/points/" ++ q_template latitude ++ "," ++ q_template longitude in
    pointsData <- makeNWSRequest (VStr pointsUrl) ;;
    if negb (truthy pointsData)
    then ret (res_status_json 500 (error_body
           ("Failed to retrieve grid point data for coordinates: "
              ++ q_template latitude ++ ", " ++ q_template longitude)))
    else
      match forecast_locator pointsData with
      | Some forecastUrl =>
          if negb (truthy forecastUrl)
          then ret (res_status_json 500 (error_body "Failed to get forecast URL"))
          else
            forecastData <- makeNWSRequest forecastUrl ;;
            if negb (truthy forecastData)
            then ret (res_status_json 500 (error_body "Failed to retrieve forecast data"))
            else ret (res_json forecastData)
      | None => ret (res_status_json 500 (error_body "Failed to get forecast URL"))
      end.

(** [app.get('/health')] *)
Definition app_get_health : http_response :=
  res_json (VObj [("status", VStr "OK");
                  ("message", VStr "Weather server is running")]).

(** *** The [weather-data] resource *)

(** [url.searchParams.get(name)]: the first value, or [null]. *)
Definition searchParams_get (name : string) (u : URL) : option string :=
  assoc name (searchParams u).

Definition s_truthy (o : option string) : bool :=
  match o with
  | None => false
  | Some EmptyString => false
  | Some _ => true
  end.

Definition s_template (o : option string) : string :=
  match o with
  | None => "null"
  | Some s => s
  end.

Definition s_is (o : option string) (lit : string) : bool :=
  match o with
  | Some s => String.eqb s lit
  | None => false
  end.

(** A read ends with the TypeError of [new URL], with the error the
    callback throws itself, or with the contents it returns. *)
Inductive resource_result : Type :=
| InvalidURL
| Thrown (message : string)
| Contents (uri : string) (mimeType : string) (text : string).

(** What the callback does once [new URL(uri)] has given [url].  In the
    alerts branch [state] is a non-empty string, so [s_template state] is
    that string. *)
Definition read_weather_data (uri : string) (url : URL) : M resource_result :=
  let type := searchParams_get "type" url in
  let state := searchParams_get "state" url in
  let latitude := searchParams_get "latitude" url in
  let longitude := searchParams_get "longitude" url in
  data <-
    (if s_is type "alerts" && s_truthy state then
       let alertsUrl :=
         NWS_API_BASE ++ "/alerts?area=" ++ toUpperCase (s_template state) in
       makeNWSRequest (VStr alertsUrl)
     else if s_is type "forecast" && s_truthy latitude && s_truthy longitude then
       let pointsUrl :=
         NWS_API_BASE ++ "/points/" ++ s_template latitude ++ ","
                      ++ s_template longitude in
       pointsData <- makeNWSRequest (VStr pointsUrl) ;;
       match opt_chain "forecast" (opt_chain "properties" (Some pointsData)) with
       | Some forecastUrl =>
           if truthy forecastUrl then makeNWSRequest forecastUrl else ret VNull
       | None => ret VNull
       end
     else ret VNull) ;;
  if negb (truthy data)
  then ret (Thrown "Failed to retrieve weather data")
  else ret (Contents uri "application/json" (JSON_stringify data)).

(** The callback of the resource; [uri] is the text handed to [new URL]. *)
Definition resource_weather_data (uri : string) : M resource_result :=
  match new_URL uri with
  | None => ret InvalidURL
  | Some url => read_weather_data uri url
  end.

(** *** MCP tools *)

(** The outcome of a tool call: the arguments fail the declared parameter
    schema and the handler is not run, or the handler returns
    [{ content: [{ type: "text", text }] }]. *)
Inductive tool_result : Type :=
| InvalidParams
| Content (text : string).

(** [z.string().length(2)] *)
Definition schema_state (v : option value) : option string :=
  match v with
  | Some (VStr s) => if Nat.eqb (utf16_length s) 2 then Some s else None
  | _ => None
  end.

(** [z.number().min(lo).max(hi)]: a Number that is not NaN, not below [lo]
    and not above [hi]. *)
Definition schema_number (lo hi : number) (v : option value) : option number :=
  match v with
  | Some (VNum S754_nan) => None
  | Some (VNum x) => if js_lt x lo || js_gt x hi then None else Some x
  | _ => None
  end.

Definition schema_latitude : option value -> option number :=
  schema_number (num (-90)) (num 90).
Definition schema_longitude : option value -> option number :=
  schema_number (num (-180)) (num 180).

(** [features.length === 0] on the value of [alertsData.features || []]. *)
Definition length_is_zero (features : value) : bool :=
  match features with
  | VArr [] => true
  | VArr _ => false
  | VStr s => Nat.eqb (String.length s) 0
  | VObj members =>
      match assoc "length" members with
      | Some (VNum (S754_zero _)) => true
      | _ => false
      end
  | _ => false
  end.

Definition features_or_empty (alertsData : value) : value :=
  match get_prop "features" alertsData with
  | Some f => if truthy f then f else VArr []
  | None => VArr []
  end.

(** The handler of [get-alerts]. *)
Definition get_alerts (state : string) : M tool_result :=
  let stateCode := toUpperCase state in
  let alertsUrl := NWS_API_BASE ++ "/alerts?area=" ++ stateCode in
  alertsData <- makeNWSRequest (VStr alertsUrl) ;;
  if negb (truthy alertsData)
  then ret (Content "Failed to retrieve alerts data")
  else
    let features := features_or_empty alertsData in
    if length_is_zero features
    then ret (Content ("No active alerts for " ++ stateCode))
    else ret (Content ("Active alerts for " ++ stateCode ++ ":" ++ String "010" (String "010"
                         (JSON_stringify alertsData)))).

(** The handler of [get-forecast]. *)
Definition get_forecast (latitude longitude : number) : M tool_result :=
  let pointsUrl :=
    NWS_API_BASE ++ "/points/" ++ toFixed4 latitude ++ "," ++ toFixed4 longitude in
  pointsData <- makeNWSRequest (VStr pointsUrl) ;;
  if negb (truthy pointsData)
  then ret (Content
         ("Failed to retrieve grid point data for coordinates: "
            ++ Number_toString latitude ++ ", " ++ Number_toString longitude
            ++ ". This location may not be supported by the NWS API (only US locations are supported)."))
  else
    match forecast_locator pointsData with
    | Some forecastUrl =>
        if negb (truthy forecastUrl)
        then ret (Content "Failed to get forecast URL from grid point data")
        else
          forecastData <- makeNWSRequest forecastUrl ;;
          if negb (truthy forecastData)
          then ret (Content "Failed to retrieve forecast data")
          else ret (Content ("Forecast for " ++ Number_toString latitude ++ ", "
                               ++ Number_toString longitude ++ ":"
                               ++ String "010" (String "010" (JSON_stringify forecastData))))
    | None => ret (Content "Failed to get forecast URL from grid point data")
    end.

(** A call of the tool: the arguments are checked against the schema
    registered with the handler, which runs only when they pass. *)
Definition tool_get_alerts (args : value) : M tool_result :=
  match schema_state (get_prop "state" args) with
  | Some state => get_alerts state
  | None => ret InvalidParams
  end.

Definition tool_get_forecast (args : value) : M tool_result :=
  match schema_latitude (get_prop "latitude" args),
        schema_longitude (get_prop "longitude" args) with
  | Some latitude, Some longitude => get_forecast latitude longitude
  | _, _ => ret InvalidParams
  end.

(** *** The surfaces, side by side *)

(** One incoming call on one of the surfaces. *)
Inductive call : Type :=
| RouteAlerts (state : string)
| RouteForecast (query : list (string * qvalue))
| Resource (uri : string)
| ToolAlerts (args : value)
| ToolForecast (args : value).

Inductive reply : Type :=
| HttpReply (r : http_response)
| ResourceReply (r : resource_result)
| ToolReply (r : tool_result).

Definition fmap {A B : Type} (f : A -> B) (m : M A) : M B :=
  a <- m ;; ret (f a).

Definition handle (c : call) : M reply :=
  match c with
  | RouteAlerts state => fmap HttpReply (app_get_alerts state)
  | RouteForecast query => fmap HttpReply (app_get_forecast query)
  | Resource uri => fmap ResourceReply (resource_weather_data uri)
  | ToolAlerts args => fmap ToolReply (tool_get_alerts args)
  | ToolForecast args => fmap ToolReply (tool_get_forecast args)
  end.

Definition reply_of (c : call) (w : World) : reply := fst (handle c (start w)).
Definition calls_of (c : call) (w : World) : list request :=
  calls (snd (handle c (start w))).

(** The failure modes of one fetch: the promise rejects, the status is not
    a success, or the body does not parse. *)
Definition fetch_failed (o : fetch_outcome) : bool :=
  match o with
  | Rejected => true
  | Responded status body =>
      negb (ok status) || match body with None => true | Some _ => false end
  end.

(** The region an alerts call carries, once past the checks of its surface. *)
Definition region_of (c : call) : option string :=
  match c with
  | RouteAlerts state => Some state
  | Resource uri =>
      match new_URL uri with
      | Some url =>
          if s_is (searchParams_get "type" url) "alerts"
             && s_truthy (searchParams_get "state" url)
          then searchParams_get "state" url else None
      | None => None
      end
  | ToolAlerts args => schema_state (get_prop "state" args)
  | _ => None
  end.

Definition alerts_request (region : string) : request :=
  nws_request (VStr (NWS_API_BASE ++ "/alerts?area=" ++ toUpperCase region)).

Definition points_request (latitude longitude : string) : request :=
  nws_request (VStr (NWS_API_BASE ++ "/points/" ++ latitude ++ "," ++ longitude)).

(** The grid lookup a forecast call starts, once past the checks of its
    surface. *)
Definition points_request_of (c : call) : option request :=
  match c with
  | RouteForecast query =>
      let latitude := assoc "latitude" query in
      let longitude := assoc "longitude" query in
      if q_truthy latitude && q_truthy longitude
      then Some (points_request (q_template latitude) (q_template longitude))
      else None
  | Resource uri =>
      match new_URL uri with
      | Some url =>
          let latitude := searchParams_get "latitude" url in
          let longitude := searchParams_get "longitude" url in
          if negb (s_is (searchParams_get "type" url) "alerts"
                   && s_truthy (searchParams_get "state" url))
             && s_is (searchParams_get "type" url) "forecast"
             && s_truthy latitude && s_truthy longitude
          then Some (points_request (s_template latitude) (s_template longitude))
          else None
      | None => None
      end
  | ToolForecast args =>
      match schema_latitude (get_prop "latitude" args),
            schema_longitude (get_prop "longitude" args) with
      | Some latitude, Some longitude =>
          Some (points_request (toFixed4 latitude) (toFixed4 longitude))
      | _, _ => None
      end
  | _ => None
  end.

(** The first request of a call, once past the checks of its surface. *)
Definition first_request_of (c : call) : option request :=
  match region_of c with
  | Some region => Some (alerts_request region)
  | None => points_request_of c
  end.


(** What each surface answers when the grid document has no forecast
    locator. *)
Definition no_locator_reply (c : call) : reply :=
  match c with
  | Resource _ => ResourceReply (Thrown "Failed to retrieve weather data")
  | ToolAlerts _ | ToolForecast _ =>
      ToolReply (Content "Failed to get forecast URL from grid point data")
  | _ => HttpReply (res_status_json 500 (error_body "Failed to get forecast URL"))
  end.

(** What each surface answers when a fetch returned no usable document:
    [first] tells whether it was the first fetch of the call. *)
Definition no_data_reply (c : call) (first : bool) : reply :=
  match c with
  | RouteAlerts _ =>
      HttpReply (res_status_json 500 (error_body "Failed to retrieve alerts data"))
  | RouteForecast query =>
      if first
      then HttpReply (res_status_json 500 (error_body
             ("Failed to retrieve grid point data for coordinates: "
                ++ q_template (assoc "latitude" query) ++ ", "
                ++ q_template (assoc "longitude" query))))
      else HttpReply (res_status_json 500 (error_body "Failed to retrieve forecast data"))
  | Resource _ => ResourceReply (Thrown "Failed to retrieve weather data")
  | ToolAlerts _ => ToolReply (Content "Failed to retrieve alerts data")
  | ToolForecast args =>
      if first
      then
        match get_prop "latitude" args, get_prop "longitude" args with
        | Some (VNum latitude), Some (VNum longitude) =>
            ToolReply (Content
              ("Failed to retrieve grid point data for coordinates: "
                 ++ Number_toString latitude ++ ", " ++ Number_toString longitude
                 ++ ". This location may not be supported by the NWS API (only US locations are supported)."))
        | _, _ => ToolReply InvalidParams
        end
      else ToolReply (Content "Failed to retrieve forecast data")
  end.

(** What each surface answers to an alerts call with the alerts document
    in hand. *)
Definition alerts_reply (c : call) (alertsData : value) : reply :=
  match c with
  | Resource uri =>
      ResourceReply (Contents uri "application/json" (JSON_stringify alertsData))
  | ToolAlerts args =>
      match schema_state (get_prop "state" args) with
      | Some state =>
          if length_is_zero (features_or_empty alertsData)
          then ToolReply (Content ("No active alerts for " ++ toUpperCase state))
          else ToolReply (Content
                 ("Active alerts for " ++ toUpperCase state ++ ":"
                    ++ String "010" (String "010" (JSON_stringify alertsData))))
      | None => ToolReply InvalidParams
      end
  | _ => HttpReply (res_json alertsData)
  end.

(** What each surface answers to an alerts call whose document lists no
    alert. *)
Definition no_alerts_reply (c : call) (alertsData : value) : reply :=
  match c with
  | Resource uri =>
      ResourceReply (Contents uri "application/json" (JSON_stringify alertsData))
  | ToolAlerts args =>
      match schema_state (get_prop "state" args) with
      | Some state => ToolReply (Content ("No active alerts for " ++ toUpperCase state))
      | None => ToolReply InvalidParams
      end
  | _ => HttpReply (res_json alertsData)
  end.

(** What each surface answers to a forecast call with the forecast
    document in hand. *)
Definition forecast_reply (c : call) (forecastData : value) : reply :=
  match c with
  | Resource uri =>
      ResourceReply (Contents uri "application/json" (JSON_stringify forecastData))
  | ToolForecast args =>
      match get_prop "latitude" args, get_prop "longitude" args with
      | Some (VNum latitude), Some (VNum longitude) =>
          ToolReply (Content
            ("Forecast for " ++ Number_toString latitude ++ ", "
               ++ Number_toString longitude ++ ":"
               ++ String "010" (String "010" (JSON_stringify forecastData))))
      | _, _ => ToolReply InvalidParams
      end
  | _ => HttpReply (res_json forecastData)
  end.

(** A reply without the echo of the resource's own [uri]. *)
Definition reply_payload (r : reply) : reply :=
  match r with
  | ResourceReply (Contents _ mimeType text) =>
      ResourceReply (Contents EmptyString mimeType text)
  | _ => r
  end.

Inductive surface : Type := Route | ResourceRead | Tool.

Definition surface_of (c : call) : surface :=
  match c with
  | RouteAlerts _ | RouteForecast _ => Route
  | Resource _ => ResourceRead
  | ToolAlerts _ | ToolForecast _ => Tool
  end.

End Server.

(** Whether a request is a grid lookup [<base>/points/<lat>,<lon>] with both
    coordinates written with exactly four decimals. *)
Definition points_url_fixed4 (r : request) : bool :=
  match req_url r with
  | VStr url =>
      match strip_prefix (NWS_API_BASE ++ "/points/") url with
      | Some coords =>
          match split_comma coords with
          | Some (a, b) => is_fixed4 a && is_fixed4 b
          | None => false
          end
      | None => false
      end
  | _ => false
  end.

(** *** A platform for examples

    Its provider answers the successive requests with the outcomes of a
    script, in order, and is unreachable once the script is used up.  Its
    conversions to text are stand-ins; the examples put ASCII text only
    through [toUpperCase], and no authority through [new URL]. *)
Definition scripted : Runtime := {|
  World := list fetch_outcome;
  fetch := fun w _ =>
    match w with
    | [] => (Rejected, [])
    | o :: w' => (o, w')
    end;
  Number_toString := fun _ => "<number>";
  JSON_stringify := fun _ => "<json>";
  String_toUpperCase := fun s => s;
  URL_canParse := fun _ => true
|}.

Definition run {A : Type} (m : @M scripted A) (script : list fetch_outcome)
  : A * list request :=
  let (a, s) := m (@start scripted script) in (a, @calls scripted s).

(** *** Sample inputs *)

(** The doubles nearest to 40.7128 and to -74.0060. *)
Definition lat_nyc : number := S754_finite false 2864908607956399 (-46).
Definition lon_nyc : number := S754_finite true 2603854640806101 (-45).

Definition args_nyc : value :=
  VObj [("latitude", VNum lat_nyc); ("longitude", VNum lon_nyc)].

Definition args_999 : value :=
  VObj [("latitude", VNum (num 999)); ("longitude", VNum (num 0))].

Definition query_of (latitude longitude : string) : list (string * qvalue) :=
  [("latitude", QStr latitude); ("longitude", QStr longitude)].

(** URIs that [new URL] accepts: the scheme [weather-data], no authority,
    the parameters in the query. *)
Definition forecast_uri (latitude longitude : string) : string :=
  "weather-data:?type=forecast&latitude=" ++ latitude
    ++ "&longitude=" ++ longitude.

Definition alerts_uri (state : string) : string :=
  "weather-data:?type=alerts&state=" ++ state.

(** A grid document with its forecast locator, and one without. *)
Definition grid_document : value :=
  VObj [("properties",
         VObj [("forecast",
                VStr "https://api.weather.gov/gridpoints/OKX/33,35/forecast")])].
Definition grid_document_without_locator : value :=
  VObj [("properties", VObj [("gridId", VStr "OKX")])].

Definition forecast_document : value :=
  VObj [("properties", VObj [("periods", VArr [])])].

Definition empty_alerts_document : value :=
  VObj [("type", VStr "FeatureCollection"); ("features", VArr [])].

(** *** Vocabulary for the behaviour of whole calls *)

Definition args_of_integers (latitude longitude : Z) : value :=
  VObj [("latitude", VNum (num latitude)); ("longitude", VNum (num longitude))].

(** What each surface answers when it turns a call down before any fetch. *)
Definition rejected_reply `{Runtime} (c : call) : reply :=
  match c with
  | Resource uri =>
      match new_URL uri with
      | Some _ => ResourceReply (Thrown "Failed to retrieve weather data")
      | None => ResourceReply InvalidURL
      end
  | ToolAlerts _ | ToolForecast _ => ToolReply InvalidParams
  | _ => HttpReply (res_status_json 400
           (error_body "Latitude and longitude are required"))
  end.

(** [data] is the document the provider sent to the call: the body of a
    response with a success status to the last request of the call, the
    first of one or the second of two. *)
Definition sent_by_provider `{Runtime} (c : call) (w : World) (data : value)
  : Prop :=
  exists (st : nat) (q : request) (w0 : World),
    ok st = true
    /\ fst (fetch w0 q) = Responded st (Some data)
    /\ ((calls_of c w = [q] /\ w0 = w)
        \/ exists q0 : request,
             calls_of c w = [q0; q] /\ w0 = snd (fetch w q0)).

(* ===================================================================== *)
(** ** Case mapping *)
(* ===================================================================== *)

Lemma is_lower_range (c : ascii) :
  is_lower c = true <-> 97 <= nat_of_ascii c <= 122.
Proof.
  unfold is_lower. rewrite andb_true_iff, !Nat.leb_le. tauto.
Qed.

Lemma is_upper_range (c : ascii) :
  is_upper c = true <-> 65 <= nat_of_ascii c <= 90.
Proof.
  unfold is_upper. rewrite andb_true_iff, !Nat.leb_le. tauto.
Qed.

Lemma to_upper_of_lower (c d : ascii) :
  is_lower c = true -> nat_of_ascii c = nat_of_ascii d + 32 ->
  to_upper c = d /\ to_upper d = d.
Proof.
  intros Hc E. pose proof (proj1 (is_lower_range c) Hc) as Rc.
  unfold to_upper. rewrite Hc. split.
  - replace (nat_of_ascii c - 32) with (nat_of_ascii d) by lia.
    apply ascii_nat_embedding.
  - destruct (is_lower d) eqn:Hd; [|reflexivity].
    apply is_lower_range in Hd. lia.
Qed.

Lemma same_letter_to_upper (c d : ascii) :
  same_letter c d = true -> to_upper c = to_upper d.
Proof.
  unfold same_letter. rewrite !orb_true_iff, !andb_true_iff, !Nat.eqb_eq.
  intros [[H | [Hc E]] | [Hd E]].
  - apply Ascii.eqb_eq in H. now subst.
  - destruct (to_upper_of_lower c d Hc E) as [-> ->]. reflexivity.
  - destruct (to_upper_of_lower d c Hd E) as [-> ->]. reflexivity.
Qed.

Lemma recased_ascii_toUpperCase (s t : string) :
  recased s t = true -> ascii_toUpperCase s = ascii_toUpperCase t.
Proof.
  revert t. induction s as [|c s IH]; intros [|d t]; simpl; try discriminate.
  - reflexivity.
  - rewrite andb_true_iff. intros [Hcd Hst].
    rewrite (same_letter_to_upper c d Hcd), (IH t Hst). reflexivity.
Qed.

Lemma same_letter_refl (c : ascii) : same_letter c c = true.
Proof. unfold same_letter. rewrite Ascii.eqb_refl. reflexivity. Qed.

Lemma same_letter_to_lower (c : ascii) : same_letter c (to_lower c) = true.
Proof.
  unfold to_lower. destruct (is_upper c) eqn:Hc; [|apply same_letter_refl].
  apply is_upper_range in Hc. unfold same_letter.
  assert (E : nat_of_ascii (ascii_of_nat (nat_of_ascii c + 32))
              = nat_of_ascii c + 32) by (apply nat_ascii_embedding; lia).
  assert (Hl : is_lower (ascii_of_nat (nat_of_ascii c + 32)) = true)
    by (apply is_lower_range; lia).
  rewrite Hl, E, Nat.eqb_refl. cbn [andb]. apply orb_true_r.
Qed.

Lemma same_letter_to_upper_self (c : ascii) : same_letter c (to_upper c) = true.
Proof.
  unfold to_upper. destruct (is_lower c) eqn:Hc; [|apply same_letter_refl].
  pose proof (proj1 (is_lower_range c) Hc) as R. unfold same_letter.
  assert (E : nat_of_ascii (ascii_of_nat (nat_of_ascii c - 32))
              = nat_of_ascii c - 32) by (apply nat_ascii_embedding; lia).
  rewrite Hc, E. replace (nat_of_ascii c - 32 + 32) with (nat_of_ascii c) by lia.
  rewrite Nat.eqb_refl. cbn [andb]. rewrite orb_true_r. reflexivity.
Qed.

Lemma same_letter_ascii (c d : ascii) :
  same_letter c d = true -> nat_of_ascii c < 128 -> nat_of_ascii d < 128.
Proof.
  unfold same_letter. rewrite !orb_true_iff, !andb_true_iff, !Nat.eqb_eq.
  intros [[H | [Hc E]] | [Hd E]] Hlt.
  - apply Ascii.eqb_eq in H. now subst.
  - lia.
  - apply is_lower_range in Hd. lia.
Qed.

Lemma recased_ascii_only (s t : string) :
  recased s t = true -> ascii_only s = true -> ascii_only t = true.
Proof.
  revert t. induction s as [|c s IH]; intros [|d t]; simpl; try discriminate.
  - reflexivity.
  - rewrite !andb_true_iff, !Nat.ltb_lt. intros [Hcd Hst] [Hc Hs].
    split; [exact (same_letter_ascii c d Hcd Hc)|exact (IH t Hst Hs)].
Qed.

(** The lower-case and the upper-case form of a string are recasings of it,
    and so is the string itself. *)
Lemma recased_refl (s : string) : recased s s = true.
Proof.
  induction s as [|c s IH]; simpl; [reflexivity|].
  now rewrite same_letter_refl, IH.
Qed.

Lemma recased_lower_form (s : string) :
  recased s (ascii_toLowerCase s) = true.
Proof.
  induction s as [|c s IH]; simpl; [reflexivity|].
  now rewrite same_letter_to_lower, IH.
Qed.

Lemma recased_upper_form (s : string) :
  recased s (ascii_toUpperCase s) = true.
Proof.
  induction s as [|c s IH]; simpl; [reflexivity|].
  now rewrite same_letter_to_upper_self, IH.
Qed.

(* ===================================================================== *)
(** ** The shape of a number written by [toFixed(4)] *)
(* ===================================================================== *)

Lemma length_app (s t : string) :
  String.length (s ++ t) = String.length s + String.length t.
Proof. induction s as [|c s IH]; simpl; [reflexivity|now rewrite IH]. Qed.

Lemma all_digits_app (s t : string) :
  all_digits (s ++ t) = all_digits s && all_digits t.
Proof.
  induction s as [|c s IH]; simpl; [reflexivity|].
  now rewrite IH, andb_assoc.
Qed.

Lemma all_digits_zeros (n : nat) : all_digits (zeros n) = true.
Proof. induction n; simpl; auto. Qed.

Lemma length_zeros (n : nat) : String.length (zeros n) = n.
Proof. induction n; simpl; auto. Qed.

Lemma all_digits_uint (d : uint) :
  all_digits (NilEmpty.string_of_uint d) = true.
Proof. induction d; simpl; auto. Qed.

Lemma all_digits_decimal (n : N) :
  all_digits (NilZero.string_of_uint (N.to_uint n)) = true.
Proof.
  unfold NilZero.string_of_uint.
  destruct (N.to_uint n) eqn:E; try reflexivity;
    rewrite <- E; apply all_digits_uint.
Qed.

Lemma take_app_length (a x : string) : take (String.length a) (a ++ x) = a.
Proof. induction a as [|c a IH]; simpl; [destruct x; reflexivity|now rewrite IH]. Qed.

Lemma drop_app_length (a x : string) : drop (String.length a) (a ++ x) = x.
Proof. induction a as [|c a IH]; simpl; [reflexivity|exact IH]. Qed.

Lemma take_drop (n : nat) (s : string) : take n s ++ drop n s = s.
Proof.
  revert s. induction n as [|n IH]; intros [|c s]; simpl; try reflexivity.
  now rewrite IH.
Qed.

Lemma length_drop (n : nat) (s : string) :
  String.length (drop n s) = String.length s - n.
Proof.
  revert s. induction n as [|n IH]; intros [|c s]; simpl; try reflexivity.
  apply IH.
Qed.

Lemma all_digits_take (n : nat) (s : string) :
  all_digits s = true -> all_digits (take n s) = true.
Proof.
  revert s. induction n as [|n IH]; intros [|c s]; simpl; try reflexivity.
  rewrite !andb_true_iff. intros [Hc Hs]. auto.
Qed.

Lemma all_digits_drop (n : nat) (s : string) :
  all_digits s = true -> all_digits (drop n s) = true.
Proof.
  revert s. induction n as [|n IH]; intros [|c s]; simpl; try tauto.
  rewrite andb_true_iff. intros [Hc Hs]. auto.
Qed.

Lemma is_empty_length (s : string) :
  is_empty s = false <-> 0 < String.length s.
Proof. destruct s; simpl; split; intros; try lia; congruence. Qed.

(** The digits written for [n]: a non-empty run of digits, a point, four
    digits. *)
Lemma fixed_digits_shape (n : Z) :
  exists a b : string,
    fixed_digits n = a ++ "." ++ b
    /\ is_empty a = false /\ all_digits a = true
    /\ all_digits b = true /\ String.length b = 4.
Proof.
  unfold fixed_digits.
  set (m0 := NilZero.string_of_uint (N.to_uint (Z.to_N n))).
  assert (Hm0 : all_digits m0 = true) by apply all_digits_decimal.
  set (m := if (String.length m0 <=? 4)%nat
            then zeros (5 - String.length m0) ++ m0 else m0).
  assert (Hm : all_digits m = true /\ 5 <= String.length m).
  { unfold m. destruct (Nat.leb_spec (String.length m0) 4).
    - rewrite all_digits_app, all_digits_zeros, Hm0, length_app, length_zeros.
      split; [reflexivity|lia].
    - split; [exact Hm0|lia]. }
  destruct Hm as [Hd Hl]. cbv zeta.
  exists (take (String.length m - 4) m), (drop (String.length m - 4) m).
  split; [reflexivity|]. repeat split.
  - apply is_empty_length.
    assert (E := f_equal String.length (take_drop (String.length m - 4) m)).
    rewrite length_app, length_drop in E. lia.
  - now apply all_digits_take.
  - now apply all_digits_drop.
  - rewrite length_drop. lia.
Qed.

Lemma is_digit_not_minus (c : ascii) :
  is_digit c = true -> Ascii.eqb c "-" = false.
Proof.
  intros H. apply Ascii.eqb_neq. intros ->. discriminate.
Qed.

Lemma is_unsigned_fixed4_intro (a b : string) :
  is_empty a = false -> all_digits a = true ->
  all_digits b = true -> String.length b = 4 ->
  is_unsigned_fixed4 (a ++ String "." b) = true.
Proof.
  intros Ha Hda Hdb Hb. unfold is_unsigned_fixed4.
  replace (String.length (a ++ String "." b) - 5) with (String.length a)
    by (rewrite length_app; simpl; lia).
  rewrite take_app_length, drop_app_length, Ha, Hda, Hdb, Hb. reflexivity.
Qed.

Lemma is_fixed4_unsigned (a b : string) :
  is_empty a = false -> all_digits a = true ->
  all_digits b = true -> String.length b = 4 ->
  is_fixed4 (a ++ "." ++ b) = true.
Proof.
  intros Ha Hda Hdb Hb.
  pose proof (is_unsigned_fixed4_intro a b Ha Hda Hdb Hb) as H.
  change (a ++ "." ++ b) with (a ++ String "." b).
  destruct a as [|c a']; [discriminate|].
  simpl in Hda. apply andb_true_iff in Hda as [Hc _].
  unfold is_fixed4. cbn [append] in *.
  rewrite (is_digit_not_minus c Hc). exact H.
Qed.

Lemma is_fixed4_signed (a b : string) :
  is_empty a = false -> all_digits a = true ->
  all_digits b = true -> String.length b = 4 ->
  is_fixed4 ("-" ++ a ++ "." ++ b) = true.
Proof.
  intros Ha Hda Hdb Hb.
  exact (is_unsigned_fixed4_intro a b Ha Hda Hdb Hb).
Qed.

Lemma all_digits_comma_free (s : string) :
  all_digits s = true -> comma_free s = true.
Proof.
  induction s as [|c s IH]; simpl; [reflexivity|].
  rewrite andb_true_iff. intros [Hc Hs]. rewrite (IH Hs), andb_true_r.
  apply negb_true_iff, Ascii.eqb_neq. intros ->. discriminate.
Qed.

Lemma comma_free_app (s t : string) :
  comma_free (s ++ t) = comma_free s && comma_free t.
Proof.
  induction s as [|c s IH]; simpl; [reflexivity|].
  now rewrite IH, andb_assoc.
Qed.

Lemma split_comma_app (a b : string) :
  comma_free a = true -> split_comma (a ++ String "," b) = Some (a, b).
Proof.
  induction a as [|c a IH]; [reflexivity|].
  cbn [comma_free append split_comma].
  rewrite andb_true_iff, negb_true_iff. intros [-> Ha].
  now rewrite (IH Ha).
Qed.

Lemma strip_prefix_app (p s : string) : strip_prefix p (p ++ s) = Some s.
Proof.
  induction p as [|c p IH]; simpl; [reflexivity|].
  now rewrite Ascii.eqb_refl.
Qed.

(** A finite Number between [-B] and [B] is below [10^21] in magnitude. *)
Lemma in_range_below_1e21 (s : bool) (m : positive) (e : Z) (B : positive) :
  (Z.pos B < 10 ^ 21)%Z ->
  js_lt (S754_finite s m e) (num (Z.neg B)) = false ->
  js_gt (S754_finite s m e) (num (Z.pos B)) = false ->
  at_least_1e21 m e = false.
Proof.
  intros HB Hlo Hhi. unfold js_gt in Hhi.
  unfold js_lt, num, fin_parts, fin_compare in Hlo, Hhi.
  unfold at_least_1e21, fin_compare.
  rewrite (Z.min_comm 0 e) in Hhi.
  set (e0 := Z.min e 0) in *.
  assert (He0 : (0 <= e - e0 /\ 0 <= 0 - e0)%Z) by (unfold e0; lia).
  assert (HP : (0 < 2 ^ (e - e0))%Z) by (apply Z.pow_pos_nonneg; lia).
  assert (HQ : (0 < 2 ^ (0 - e0))%Z) by (apply Z.pow_pos_nonneg; lia).
  set (P := (2 ^ (e - e0))%Z) in *. set (Q := (2 ^ (0 - e0))%Z) in *.
  set (T := (10 ^ 21)%Z) in *.
  assert (HBQ : (Z.pos B * Q < T * Q)%Z)
    by (apply Z.mul_lt_mono_pos_r; assumption).
  assert (Hm : (Z.pos m * P <= Z.pos B * Q)%Z).
  { destruct s; unfold signed in Hlo, Hhi.
    - destruct (Z.compare_spec (Z.neg m * P) (Z.neg B * Q)) as [E | E | E];
        try discriminate; lia.
    - destruct (Z.compare_spec (Z.pos B * Q) (Z.pos m * P)) as [E | E | E];
        try discriminate; lia. }
  destruct (Z.compare_spec (Z.pos m * P) (T * Q)) as [E | E | E];
    try reflexivity; lia.
Qed.

(* ===================================================================== *)
(** ** Running the handlers *)
(* ===================================================================== *)

Section Contract.
Context `{RT : Runtime}.

Lemma recased_toUpperCase (s t : string) :
  ascii_only s = true -> recased s t = true -> toUpperCase s = toUpperCase t.
Proof.
  intros Hs Hst. unfold toUpperCase.
  rewrite Hs, (recased_ascii_only s t Hst Hs).
  exact (recased_ascii_toUpperCase s t Hst).
Qed.

Lemma makeNWSRequest_run (url : value) (s : net) :
  makeNWSRequest url s =
  (nws_result (fst (fetch (world s) (nws_request url))),
   {| world := snd (fetch (world s) (nws_request url));
      calls := calls s ++ [nws_request url] |}).
Proof.
  unfold makeNWSRequest, bind, do_fetch, ret.
  destruct (fetch (world s) (nws_request url)) as [o w']; reflexivity.
Qed.

Lemma nws_result_failed (o : fetch_outcome) :
  fetch_failed o = true -> nws_result o = VNull.
Proof.
  destruct o as [|st [v|]]; simpl; try reflexivity.
  - rewrite orb_false_r. intros ->. reflexivity.
  - destruct (ok st); reflexivity.
Qed.

Lemma nws_result_ok (st : nat) (v : value) :
  ok st = true -> nws_result (Responded st (Some v)) = v.
Proof. intros H. simpl. rewrite H. reflexivity. Qed.

Lemma nws_result_not_null (o : fetch_outcome) :
  nws_result o <> VNull ->
  exists st, ok st = true /\ o = Responded st (Some (nws_result o)).
Proof.
  destruct o as [|st [v|]]; simpl; try congruence.
  - destruct (ok st) eqn:E; simpl; [|congruence]. intros _. exists st. auto.
  - destruct (ok st); simpl; congruence.
Qed.

(** The tactic that steps a handler through its next fetch. *)
Ltac step_fetch :=
  unfold bind at 1; rewrite makeNWSRequest_run; cbv beta iota zeta.

(** *** Alerts: one fetch on every surface *)

Lemma app_get_alerts_run (state : string) (s : net) :
  app_get_alerts state s =
  (let v := nws_result (fst (fetch (world s) (alerts_request state))) in
   if truthy v then res_json v
   else res_status_json 500 (error_body "Failed to retrieve alerts data"),
   {| world := snd (fetch (world s) (alerts_request state));
      calls := calls s ++ [alerts_request state] |}).
Proof.
  unfold app_get_alerts. step_fetch. fold (alerts_request state).
  destruct (truthy _); reflexivity.
Qed.

Lemma get_alerts_run (state : string) (s : net) :
  get_alerts state s =
  (let v := nws_result (fst (fetch (world s) (alerts_request state))) in
   if truthy v then
     if length_is_zero (features_or_empty v)
     then Content ("No active alerts for " ++ toUpperCase state)
     else Content ("Active alerts for " ++ toUpperCase state ++ ":"
                     ++ String "010" (String "010" (JSON_stringify v)))
   else Content "Failed to retrieve alerts data",
   {| world := snd (fetch (world s) (alerts_request state));
      calls := calls s ++ [alerts_request state] |}).
Proof.
  unfold get_alerts. step_fetch. fold (alerts_request state).
  destruct (truthy _); simpl; [|reflexivity].
  destruct (length_is_zero _); reflexivity.
Qed.

Lemma resource_alerts_run (uri : string) (region : string) (s : net) :
  region_of (Resource uri) = Some region ->
  resource_weather_data uri s =
  (let v := nws_result (fst (fetch (world s) (alerts_request region))) in
   if truthy v then Contents uri "application/json" (JSON_stringify v)
   else Thrown "Failed to retrieve weather data",
   {| world := snd (fetch (world s) (alerts_request region));
      calls := calls s ++ [alerts_request region] |}).
Proof.
  unfold region_of, resource_weather_data.
  destruct (new_URL uri) as [url|]; [|discriminate].
  unfold read_weather_data. intros H.
  destruct (s_is _ "alerts" && s_truthy _); [|discriminate].
  rewrite H. simpl s_template.
  step_fetch. fold (alerts_request region).
  destruct (truthy _); reflexivity.
Qed.

(** The whole behaviour of an alerts call that passes the checks of its
    surface. *)
Lemma alerts_run (c : call) (w : World) (region : string) :
  region_of c = Some region ->
  handle c (start w) =
  (let alertsData := nws_result (fst (fetch w (alerts_request region))) in
   if truthy alertsData then alerts_reply c alertsData else no_data_reply c true,
   {| world := snd (fetch w (alerts_request region));
      calls := [alerts_request region] |}).
Proof.
  destruct c as [state | query | uri | args | args]; try discriminate.
  - intros [= <-]. unfold handle, fmap. unfold bind at 1.
    rewrite app_get_alerts_run. cbn [world calls start app alerts_reply no_data_reply].
    destruct (truthy _); reflexivity.
  - intros H. unfold handle, fmap. unfold bind at 1.
    rewrite (resource_alerts_run _ _ _ H).
    cbn [world calls start app alerts_reply no_data_reply].
    destruct (truthy _); reflexivity.
  - cbn [region_of]. intros H. unfold handle, fmap. unfold bind at 1.
    unfold tool_get_alerts. rewrite H. rewrite get_alerts_run.
    cbn [world calls start app alerts_reply no_data_reply]. rewrite H.
    destruct (truthy _); [|reflexivity].
    destruct (length_is_zero _); reflexivity.
Qed.

(** *** Forecast: the chain of two fetches on every surface *)

Lemma schema_number_some (lo hi : number) (v : option value) (x : number) :
  schema_number lo hi v = Some x ->
  v = Some (VNum x) /\ js_lt x lo = false /\ js_gt x hi = false /\ x <> S754_nan.
Proof.
  unfold schema_number. destruct v as [[| | y | | |]|]; try discriminate.
  destruct y; try discriminate;
    (destruct (js_lt _ lo) eqn:E1; [discriminate|];
     destruct (js_gt _ hi) eqn:E2; [discriminate|];
     simpl; intros [= <-]; repeat split; auto; discriminate).
Qed.

(** The whole behaviour of a forecast call that passes the checks of its
    surface, as a function of what the provider answers. *)
Lemma forecast_run (c : call) (w : World) (r : request) :
  points_request_of c = Some r ->
  handle c (start w) =
  (let o1 := fetch w r in
   let pointsData := nws_result (fst o1) in
   if truthy pointsData then
     match forecast_locator pointsData with
     | Some forecastUrl =>
         if truthy forecastUrl then
           let o2 := fetch (snd o1) (nws_request forecastUrl) in
           let forecastData := nws_result (fst o2) in
           (if truthy forecastData then forecast_reply c forecastData
            else no_data_reply c false,
            {| world := snd o2; calls := [r; nws_request forecastUrl] |})
         else (no_locator_reply c, {| world := snd o1; calls := [r] |})
     | None => (no_locator_reply c, {| world := snd o1; calls := [r] |})
     end
   else (no_data_reply c true, {| world := snd o1; calls := [r] |})).
Proof.
  destruct c as [state | query | uri | args | args]; simpl points_request_of;
    try discriminate.
  - (* the route *)
    destruct (q_truthy (assoc "latitude" query)) eqn:Hlat;
      [|discriminate].
    destruct (q_truthy (assoc "longitude" query)) eqn:Hlon;
      [|discriminate].
    simpl. intros [= <-].
    unfold fmap. unfold bind at 1. unfold app_get_forecast.
    rewrite Hlat, Hlon. cbn [negb orb].
    step_fetch.
    fold (points_request (q_template (assoc "latitude" query))
                         (q_template (assoc "longitude" query))).
    set (r := points_request _ _).
    cbn [world calls start app].
    destruct (truthy (nws_result (fst (fetch w r)))); cbn [negb];
      [|reflexivity].
    destruct (forecast_locator _) as [u|]; [|reflexivity].
    destruct (truthy u); cbn [negb]; [|reflexivity].
    step_fetch. cbn [world calls app].
    destruct (truthy (nws_result (fst (fetch _ (nws_request u))))); reflexivity.
  - (* the resource *)
    destruct (new_URL uri) as [url|] eqn:Hurl; [|discriminate].
    destruct (s_is (searchParams_get "type" url) "alerts"
              && s_truthy (searchParams_get "state" url)) eqn:Ha;
      simpl negb; simpl andb; [discriminate|].
    destruct (s_is (searchParams_get "type" url) "forecast"
              && s_truthy (searchParams_get "latitude" url)
              && s_truthy (searchParams_get "longitude" url)) eqn:Hf;
      [|discriminate].
    intros [= <-].
    unfold handle, fmap. unfold bind at 1. unfold resource_weather_data.
    rewrite Hurl. unfold read_weather_data.
    rewrite Ha, Hf.
    unfold bind at 1. step_fetch.
    fold (points_request (s_template (searchParams_get "latitude" url))
                         (s_template (searchParams_get "longitude" url))).
    set (r := points_request _ _).
    cbn [world calls start app].
    unfold forecast_locator.
    destruct (nws_result (fst (fetch w r))) as [| b | x | str | items | members] eqn:Ep;
      try reflexivity.
    + destruct b; reflexivity.
    + destruct x; reflexivity.
    + destruct str; reflexivity.
    + cbn [opt_chain truthy].
      destruct (opt_chain "forecast" (get_prop "properties" (VObj members)))
        as [u|]; [|reflexivity].
      destruct (truthy u); [|reflexivity].
      rewrite makeNWSRequest_run. cbn [world calls app].
      destruct (truthy (nws_result (fst (fetch _ (nws_request u))))); reflexivity.
  - (* the tool *)
    destruct (schema_latitude (get_prop "latitude" args)) as [lat|] eqn:Hlat;
      [|discriminate].
    destruct (schema_longitude (get_prop "longitude" args)) as [lon|] eqn:Hlon;
      [|discriminate].
    intros [= <-].
    destruct (schema_number_some _ _ _ _ Hlat) as (Elat & _).
    destruct (schema_number_some _ _ _ _ Hlon) as (Elon & _).
    unfold handle, fmap. unfold bind at 1. unfold tool_get_forecast.
    rewrite Hlat, Hlon.
    unfold get_forecast. step_fetch.
    fold (points_request (toFixed4 lat) (toFixed4 lon)).
    set (r := points_request _ _).
    cbn [world calls start app].
    unfold no_data_reply, forecast_reply. rewrite Elat, Elon.
    destruct (truthy (nws_result (fst (fetch w r)))); cbn [negb];
      [|reflexivity].
    destruct (forecast_locator _) as [u|]; [|reflexivity].
    destruct (truthy u); cbn [negb]; [|reflexivity].
    step_fetch. cbn [world calls app].
    destruct (truthy (nws_result (fst (fetch _ (nws_request u))))); reflexivity.
Qed.

(** *** Coordinates in the request of the tool *)

Lemma toFixed4_of_digits (sign : string) (n : Z) :
  sign = EmptyString \/ sign = "-" ->
  is_fixed4 (sign ++ fixed_digits n) = true
  /\ comma_free (sign ++ fixed_digits n) = true.
Proof.
  intros Hs. destruct (fixed_digits_shape n) as (a & b & -> & Ha & Hda & Hdb & Hb).
  split.
  - destruct Hs as [-> | ->].
    + apply is_fixed4_unsigned; assumption.
    + apply is_fixed4_signed; assumption.
  - rewrite !comma_free_app, (all_digits_comma_free a Hda),
      (all_digits_comma_free b Hdb).
    destruct Hs as [-> | ->]; reflexivity.
Qed.

(** A Number accepted by a schema with bounds [-B] and [B] is written with
    exactly four decimals. *)
Lemma toFixed4_in_range (B : positive) (v : option value) (x : number) :
  (Z.pos B < 10 ^ 21)%Z ->
  schema_number (num (Z.neg B)) (num (Z.pos B)) v = Some x ->
  is_fixed4 (toFixed4 x) = true /\ comma_free (toFixed4 x) = true.
Proof.
  intros HB H. destruct (schema_number_some _ _ _ _ H) as (_ & Hlo & Hhi & Hnan).
  destruct x as [s | s | | s m e].
  - apply (toFixed4_of_digits EmptyString 0). now left.
  - destruct s; [discriminate Hlo | discriminate Hhi].
  - congruence.
  - unfold toFixed4. rewrite (in_range_below_1e21 s m e B HB Hlo Hhi).
    apply toFixed4_of_digits. destruct s; auto.
Qed.

Lemma points_url_fixed4_intro (a b : string) :
  is_fixed4 a = true -> comma_free a = true -> is_fixed4 b = true ->
  points_url_fixed4 (points_request a b) = true.
Proof.
  intros Ha Hc Hb. unfold points_url_fixed4, points_request, nws_request.
  cbn [req_url].
  change (NWS_API_BASE ++ "/points/" ++ a ++ "," ++ b)
    with ((NWS_API_BASE ++ "/points/") ++ (a ++ String "," b)).
  rewrite strip_prefix_app, (split_comma_app a b Hc), Ha, Hb. reflexivity.
Qed.

(* ===================================================================== *)
(** ** The contract *)
(* ===================================================================== *)

Lemma schema_number_within (lo hi : Z) (x : number) :
  schema_number (num lo) (num hi) (Some (VNum x)) =
  if within lo hi x then Some x else None.
Proof.
  unfold schema_number, within.
  destruct x; cbn [is_nan negb andb]; try reflexivity;
    destruct (js_lt _ (num lo)); cbn [negb andb orb]; try reflexivity;
    destruct (js_gt _ (num hi)); reflexivity.
Qed.

(** C1 (as amended): on the get-forecast tool, a latitude outside [-90, 90]
    or a longitude outside [-180, 180] makes the call fail on the parameter
    schema, before the handler runs: no request is started and the provider
    is left untouched. *)
Theorem tool_forecast_out_of_range_rejected
    (args : value) (latitude longitude : number) (w : World) :
  get_prop "latitude" args = Some (VNum latitude) ->
  get_prop "longitude" args = Some (VNum longitude) ->
  within (-90) 90 latitude = false \/ within (-180) 180 longitude = false ->
  handle (ToolForecast args) (start w) = (ToolReply InvalidParams, start w)
  /\ calls_of (ToolForecast args) w = [].
Proof.
  intros Hlat Hlon Hout.
  assert (E : handle (ToolForecast args) (start w)
              = (ToolReply InvalidParams, start w)).
  { unfold handle, fmap. unfold bind at 1. unfold tool_get_forecast.
    rewrite Hlat, Hlon. unfold schema_latitude, schema_longitude.
    rewrite !schema_number_within.
    destruct Hout as [-> | ->]; [reflexivity|].
    destruct (within (-90) 90 latitude); reflexivity. }
  split; [exact E|]. unfold calls_of. rewrite E. reflexivity.
Qed.

(** C4: on every surface, when the grid lookup returns nothing usable or a
    document without a forecast locator, the forecast document is never
    requested: the grid lookup is the only request of the call. *)
Theorem forecast_chain_short_circuits (c : call) (w : World) (r : request) :
  points_request_of c = Some r ->
  truthy (nws_result (fst (fetch w r))) = false \/
  truthy_opt (forecast_locator (nws_result (fst (fetch w r)))) = false ->
  calls_of c w = [r].
Proof.
  intros Hr H. unfold calls_of. rewrite (forecast_run c w r Hr).
  cbv zeta.
  destruct (truthy (nws_result (fst (fetch w r)))); [|reflexivity].
  destruct H as [H | H]; [discriminate|].
  destruct (forecast_locator _) as [u|]; [|reflexivity].
  simpl in H. rewrite H. reflexivity.
Qed.

Lemma first_request_shape (c : call) (r : request) :
  first_request_of c = Some r -> nws_request (req_url r) = r.
Proof.
  unfold first_request_of. intros Hr.
  destruct (region_of c); [injection Hr as <-; reflexivity|].
  destruct c; cbn [points_request_of] in Hr; try discriminate.
  - destruct (_ && _); [injection Hr as <-; reflexivity|discriminate].
  - destruct (new_URL uri) as [url|]; [|discriminate].
    destruct (_ && _); [injection Hr as <-; reflexivity|discriminate].
  - destruct (schema_latitude _); [|discriminate].
    destruct (schema_longitude _); [|discriminate].
    injection Hr as <-; reflexivity.
Qed.

(** A call whose first fetch fails. *)
Lemma failed_first_fetch_run (c : call) (w : World) (r : request) :
  first_request_of c = Some r ->
  fetch_failed (fst (fetch w r)) = true ->
  handle c (start w) =
    (no_data_reply c true, {| world := snd (fetch w r); calls := [r] |}).
Proof.
  intros Hr Hf. pose proof (nws_result_failed _ Hf) as Hn.
  unfold first_request_of in Hr.
  destruct (region_of c) as [region|] eqn:Hreg.
  - injection Hr as <-. rewrite (alerts_run c w region Hreg).
    cbv zeta. rewrite Hn. reflexivity.
  - rewrite (forecast_run c w r Hr). cbv zeta. rewrite Hn. reflexivity.
Qed.

(** A forecast call whose second fetch fails. *)
Lemma failed_second_fetch_run
    (c : call) (w : World) (r : request) (forecastUrl : value) :
  points_request_of c = Some r ->
  truthy (nws_result (fst (fetch w r))) = true ->
  forecast_locator (nws_result (fst (fetch w r))) = Some forecastUrl ->
  truthy forecastUrl = true ->
  fetch_failed (fst (fetch (snd (fetch w r)) (nws_request forecastUrl))) = true ->
  handle c (start w) =
    (no_data_reply c false,
     {| world := snd (fetch (snd (fetch w r)) (nws_request forecastUrl));
        calls := [r; nws_request forecastUrl] |}).
Proof.
  intros Hr Hp Hloc Hu Hf. rewrite (forecast_run c w r Hr). cbv zeta.
  rewrite Hp, Hloc, Hu, (nws_result_failed _ Hf). reflexivity.
Qed.

(** The failure reply of a surface is none of its replies with a document. *)
Lemma no_data_reply_is_no_success
    (c : call) (r : request) (first : bool) (v : value) :
  first_request_of c = Some r ->
  no_data_reply c first <> alerts_reply c v
  /\ no_data_reply c first <> forecast_reply c v.
Proof.
  intros Hr. destruct c as [state | query | uri | args | args].
  - destruct first; split; discriminate.
  - destruct first; split; discriminate.
  - split; discriminate.
  - unfold first_request_of in Hr. cbn [region_of points_request_of] in Hr.
    cbn [no_data_reply alerts_reply forecast_reply].
    destruct (schema_state _); [|discriminate].
    destruct (length_is_zero _); split; discriminate.
  - unfold first_request_of in Hr. cbn [region_of points_request_of] in Hr.
    destruct (schema_latitude _) as [lat|] eqn:Hlat; [|discriminate].
    destruct (schema_longitude _) as [lon|] eqn:Hlon; [|discriminate].
    destruct (schema_number_some _ _ _ _ Hlat) as (Elat & _).
    destruct (schema_number_some _ _ _ _ Hlon) as (Elon & _).
    cbn [no_data_reply alerts_reply forecast_reply]. rewrite Elat, Elon.
    destruct first; split; discriminate.
Qed.

(** C6: whatever makes a fetch fail (rejected promise, status that is not a
    success, body that does not parse), [makeNWSRequest] returns the one
    value [null]; the surface that made the call then answers with its
    explicit failure reply, at the first fetch as at the second, and that
    reply is never one of its replies with a document.  Conversely a result
    other than [null] is the body of a response with a success status. *)
Theorem fetch_failures_collapse :
  (forall (url : value) (s : net),
     fetch_failed (fst (fetch (world s) (nws_request url))) = true ->
     fst (makeNWSRequest url s) = VNull)
  /\ (forall (c : call) (w : World) (r : request),
        first_request_of c = Some r ->
        fetch_failed (fst (fetch w r)) = true ->
        reply_of c w = no_data_reply c true /\ calls_of c w = [r])
  /\ (forall (c : call) (w : World) (r : request) (forecastUrl : value),
        points_request_of c = Some r ->
        truthy (nws_result (fst (fetch w r))) = true ->
        forecast_locator (nws_result (fst (fetch w r))) = Some forecastUrl ->
        truthy forecastUrl = true ->
        fetch_failed
          (fst (fetch (snd (fetch w r)) (nws_request forecastUrl))) = true ->
        reply_of c w = no_data_reply c false)
  /\ (forall (c : call) (r : request) (first : bool) (v : value),
        first_request_of c = Some r ->
        no_data_reply c first <> alerts_reply c v
        /\ no_data_reply c first <> forecast_reply c v)
  /\ (forall (url : value) (s : net),
        fst (makeNWSRequest url s) <> VNull ->
        exists st : nat,
          ok st = true /\
          fst (fetch (world s) (nws_request url))
            = Responded st (Some (fst (makeNWSRequest url s)))).
Proof.
  split; [|split; [|split; [|split]]].
  - intros url s Hf. rewrite makeNWSRequest_run.
    exact (nws_result_failed _ Hf).
  - intros c w r Hr Hf. unfold reply_of, calls_of.
    rewrite (failed_first_fetch_run c w r Hr Hf). split; reflexivity.
  - intros c w r u Hr Hp Hloc Hu Hf. unfold reply_of.
    rewrite (failed_second_fetch_run c w r u Hr Hp Hloc Hu Hf). reflexivity.
  - exact no_data_reply_is_no_success.
  - intros url s. rewrite makeNWSRequest_run. cbn [fst].
    apply nws_result_not_null.
Qed.

(** C7: a GET /forecast without its latitude or without its longitude is
    answered 400 at once: the handler returns before building any URL, no
    request is started. *)
Theorem forecast_route_missing_parameter
    (query : list (string * qvalue)) (w : World) :
  assoc "latitude" query = None \/ assoc "longitude" query = None ->
  handle (RouteForecast query) (start w) =
    (HttpReply (res_status_json 400
       (error_body "Latitude and longitude are required")), start w)
  /\ calls_of (RouteForecast query) w = [].
Proof.
  intros H.
  assert (E : handle (RouteForecast query) (start w) =
    (HttpReply (res_status_json 400
       (error_body "Latitude and longitude are required")), start w)).
  { unfold handle, fmap. unfold bind at 1. unfold app_get_forecast.
    destruct H as [-> | ->]; cbn [q_truthy negb orb]; [reflexivity|].
    rewrite orb_true_r. reflexivity. }
  split; [exact E|]. unfold calls_of. rewrite E. reflexivity.
Qed.


(** C8: on every surface, an alerts document without any feature is answered
    as a success (status 200 with the document, the resource contents, the
    text [No active alerts for XX]), never with the failure reply. *)
Theorem empty_alerts_is_success
    (c : call) (w w' : World) (region : string) (st : nat) (doc : value) :
  region_of c = Some region ->
  fetch w (alerts_request region) = (Responded st (Some doc), w') ->
  ok st = true ->
  truthy doc = true ->
  get_prop "features" doc = None \/ get_prop "features" doc = Some (VArr []) ->
  reply_of c w = no_alerts_reply c doc
  /\ reply_of c w <> no_data_reply c true.
Proof.
  intros Hreg Hfetch Hok Hdoc Hfeat.
  unfold reply_of. rewrite (alerts_run c w region Hreg). cbv zeta.
  rewrite Hfetch. cbn [fst]. rewrite (nws_result_ok _ _ Hok), Hdoc.
  assert (Hz : length_is_zero (features_or_empty doc) = true)
    by (unfold features_or_empty; destruct Hfeat as [-> | ->]; reflexivity).
  destruct c as [state | query | uri | args | args]; try discriminate;
    cbn [fst alerts_reply no_alerts_reply no_data_reply].
  - split; [reflexivity|discriminate].
  - split; [reflexivity|discriminate].
  - cbn [region_of] in Hreg. rewrite Hreg, Hz.
    split; [reflexivity|discriminate].
Qed.

(** C9: on the route, when the grid lookup gives a locator and the forecast
    fetch succeeds, the reply is status 200 with the forecast document
    itself as its body, after exactly the two requests. *)
Theorem forecast_route_returns_document
    (query : list (string * qvalue)) (w w1 w2 : World) (r : request)
    (st1 st2 : nat) (pointsData forecastUrl forecastData : value) :
  points_request_of (RouteForecast query) = Some r ->
  fetch w r = (Responded st1 (Some pointsData), w1) ->
  ok st1 = true ->
  truthy pointsData = true ->
  forecast_locator pointsData = Some forecastUrl ->
  truthy forecastUrl = true ->
  fetch w1 (nws_request forecastUrl) = (Responded st2 (Some forecastData), w2) ->
  ok st2 = true ->
  truthy forecastData = true ->
  handle (RouteForecast query) (start w) =
    (HttpReply {| status := 200; body := forecastData |},
     {| world := w2; calls := [r; nws_request forecastUrl] |}).
Proof.
  intros Hr H1 Hok1 Hp Hloc Hu H2 Hok2 Hd.
  rewrite (forecast_run _ w r Hr). cbv zeta.
  rewrite H1. cbn [fst snd]. rewrite (nws_result_ok _ _ Hok1), Hp, Hloc, Hu.
  rewrite H2. cbn [fst snd]. rewrite (nws_result_ok _ _ Hok2), Hd.
  reflexivity.
Qed.

(** C10, on the URIs that [new URL] accepts: a read whose [type] is neither
    [alerts] nor [forecast], or that lacks the state of an alerts read or a
    coordinate of a forecast read, starts no request and throws the generic
    error; a read whose first fetch fails throws that same error. *)
Theorem resource_invalid_read_is_generic_error
    (uri : string) (url : URL) (w : World) :
  new_URL uri = Some url ->
  (searchParams_get "type" url <> Some "alerts" /\
   searchParams_get "type" url <> Some "forecast") \/
  (searchParams_get "type" url = Some "alerts" /\
   searchParams_get "state" url = None) \/
  (searchParams_get "type" url = Some "forecast" /\
   (searchParams_get "latitude" url = None \/
    searchParams_get "longitude" url = None)) ->
  handle (Resource uri) (start w) =
    (ResourceReply (Thrown "Failed to retrieve weather data"), start w)
  /\ calls_of (Resource uri) w = []
  /\ forall (uri' : string) (w' : World) (r : request),
       first_request_of (Resource uri') = Some r ->
       fetch_failed (fst (fetch w' r)) = true ->
       reply_of (Resource uri') w' =
         ResourceReply (Thrown "Failed to retrieve weather data").
Proof.
  intros Hurl H.
  assert (E : handle (Resource uri) (start w) =
    (ResourceReply (Thrown "Failed to retrieve weather data"), start w)).
  { unfold handle, fmap. unfold bind at 1. unfold resource_weather_data.
    rewrite Hurl. unfold read_weather_data.
    assert (Ha : s_is (searchParams_get "type" url) "alerts"
                 && s_truthy (searchParams_get "state" url) = false).
    { destruct H as [[Hn _] | [[_ ->] | [-> _]]]; try reflexivity.
      - destruct (searchParams_get "type" url) as [t|]; [|reflexivity].
        cbn [s_is]. destruct (String.eqb_spec t "alerts"); [|reflexivity].
        congruence.
      - apply andb_false_r. }
    assert (Hf : s_is (searchParams_get "type" url) "forecast"
                 && s_truthy (searchParams_get "latitude" url)
                 && s_truthy (searchParams_get "longitude" url) = false).
    { destruct H as [[_ Hn] | [[-> _] | [_ [-> | ->]]]]; try reflexivity.
      - destruct (searchParams_get "type" url) as [t|]; [|reflexivity].
        cbn [s_is]. destruct (String.eqb_spec t "forecast"); [|reflexivity].
        congruence.
      - cbn [s_truthy]. rewrite andb_false_r. reflexivity.
      - apply andb_false_r. }
    rewrite Ha, Hf. reflexivity. }
  split; [exact E|]. split; [unfold calls_of; rewrite E; reflexivity|].
  intros uri' w' r Hr Hfail.
  unfold reply_of. rewrite (failed_first_fetch_run _ w' r Hr Hfail). reflexivity.
Qed.

(** C10, on the URIs of the README: [weather-data?type=...] has no scheme,
    so [new URL] throws before any parameter is read.  No request is
    started, and the error is the TypeError of the platform, not the generic
    error of the callback; the valid reads of the README end the same way. *)
Theorem resource_readme_uri_is_invalid_url (w : World) :
  handle (Resource "weather-data?type=radar") (start w)
    = (ResourceReply InvalidURL, start w)
  /\ handle (Resource "weather-data?type=alerts&state=CA") (start w)
    = (ResourceReply InvalidURL, start w)
  /\ handle (Resource
               "weather-data?type=forecast&latitude=40.7128&longitude=-74.0060")
        (start w)
    = (ResourceReply InvalidURL, start w)
  /\ ResourceReply InvalidURL
     <> ResourceReply (Thrown "Failed to retrieve weather data").
Proof. repeat split; try reflexivity; discriminate. Qed.

(** C5: two alerts calls whose regions differ only by the case of their
    letters (the lower-case and the upper-case form of a region are such
    recasings of it, see [recased_lower_form] and [recased_upper_form])
    start the same single request, for the upper-case region, and on one
    surface they get the same reply (the resource echoes the [uri] it was
    read with, which is left out of the comparison). *)
Theorem alerts_region_case_insensitive
    (c1 c2 : call) (s t : string) (w : World) :
  region_of c1 = Some s ->
  region_of c2 = Some t ->
  ascii_only s = true ->
  recased s t = true ->
  calls_of c1 w =
    [nws_request (VStr (NWS_API_BASE ++ "/alerts?area=" ++ toUpperCase s))]
  /\ calls_of c2 w = calls_of c1 w
  /\ snd (handle c2 (start w)) = snd (handle c1 (start w))
  /\ (surface_of c1 = surface_of c2 ->
      reply_payload (reply_of c2 w) = reply_payload (reply_of c1 w)).
Proof.
  intros H1 H2 Hs Hst.
  pose proof (recased_toUpperCase s t Hs Hst) as Eu.
  assert (Er : alerts_request t = alerts_request s)
    by (unfold alerts_request; rewrite Eu; reflexivity).
  unfold calls_of, reply_of.
  rewrite (alerts_run c1 w s H1), (alerts_run c2 w t H2), Er. cbv zeta.
  cbn [fst snd calls].
  repeat split.
  intros Hsurf.
  set (v := nws_result (fst (fetch w (alerts_request s)))).
  destruct c1 as [s1 | q1 | u1 | a1 | a1]; try discriminate;
    destruct c2 as [s2 | q2 | u2 | a2 | a2]; try discriminate.
  - destruct (truthy v); reflexivity.
  - destruct (truthy v); reflexivity.
  - cbn [region_of] in H1, H2. cbn [alerts_reply no_data_reply].
    rewrite H1, H2, Eu. reflexivity.
Qed.

(** C2 (as amended): on the get-forecast tool, every coordinate in range
    (latitude in [-90, 90], longitude in [-180, 180]) is written into the
    URL of the grid lookup with exactly four decimals, whatever its own
    precision; that lookup is the first request of the call. *)
Theorem tool_forecast_url_has_four_decimals
    (args : value) (latitude longitude : number) (w : World) :
  get_prop "latitude" args = Some (VNum latitude) ->
  get_prop "longitude" args = Some (VNum longitude) ->
  within (-90) 90 latitude = true ->
  within (-180) 180 longitude = true ->
  (exists rest : list request,
     calls_of (ToolForecast args) w =
       points_request (toFixed4 latitude) (toFixed4 longitude) :: rest)
  /\ is_fixed4 (toFixed4 latitude) = true
  /\ is_fixed4 (toFixed4 longitude) = true
  /\ points_url_fixed4
       (points_request (toFixed4 latitude) (toFixed4 longitude)) = true.
Proof.
  intros Elat Elon Wlat Wlon.
  assert (Hlat : schema_latitude (get_prop "latitude" args) = Some latitude)
    by (rewrite Elat; unfold schema_latitude;
        rewrite schema_number_within, Wlat; reflexivity).
  assert (Hlon : schema_longitude (get_prop "longitude" args) = Some longitude)
    by (rewrite Elon; unfold schema_longitude;
        rewrite schema_number_within, Wlon; reflexivity).
  destruct (toFixed4_in_range 90 _ _ eq_refl Hlat) as [Flat Clat].
  destruct (toFixed4_in_range 180 _ _ eq_refl Hlon) as [Flon _].
  split; [|auto using points_url_fixed4_intro].
  set (r := points_request _ _).
  assert (Hr : points_request_of (ToolForecast args) = Some r)
    by (cbn [points_request_of]; rewrite Hlat, Hlon; reflexivity).
  unfold calls_of. rewrite (forecast_run _ w r Hr). cbv zeta.
  destruct (truthy (nws_result (fst (fetch w r)))); [|eexists; reflexivity].
  destruct (forecast_locator _) as [u|]; [|eexists; reflexivity].
  destruct (truthy u); eexists; reflexivity.
Qed.

End Contract.

(* ===================================================================== *)
(** ** The contract on sample calls *)
(* ===================================================================== *)

(** [toFixed(4)] on a few doubles: 1.5, 0.15625 (a tie, rounded up),
    -2^-20 (the sign stays) and negative zero. *)
Example toFixed4_samples :
  @toFixed4 scripted (S754_finite false 3 (-1)) = "1.5000"
  /\ @toFixed4 scripted (S754_finite false 5 (-5)) = "0.1563"
  /\ @toFixed4 scripted (S754_finite true 1 (-20)) = "-0.0000"
  /\ @toFixed4 scripted (S754_zero true) = "0.0000"
  /\ @toFixed4 scripted lat_nyc = "40.7128"
  /\ @toFixed4 scripted lon_nyc = "-74.0060".
Proof. repeat split; reflexivity. Qed.

(** Region [ca] on the three surfaces: one request for [CA]. *)
Example alerts_for_ca :
  run (@handle scripted (RouteAlerts "ca"))
      [Responded 200 (Some empty_alerts_document)]
    = (HttpReply (res_json empty_alerts_document),
       [nws_request (VStr "https://api.weather.gov/alerts?area=CA")])
  /\ run (@handle scripted (ToolAlerts (VObj [("state", VStr "ca")])))
        [Responded 200 (Some empty_alerts_document)]
    = (ToolReply (Content "No active alerts for CA"),
       [nws_request (VStr "https://api.weather.gov/alerts?area=CA")])
  /\ snd (run (@handle scripted (Resource (alerts_uri "ca")))
             [Responded 200 (Some empty_alerts_document)])
    = [nws_request (VStr "https://api.weather.gov/alerts?area=CA")].
Proof. repeat split; reflexivity. Qed.

(** The coordinate (40.7128, -74.0060) on the tool: grid lookup, locator,
    forecast. *)
Example forecast_for_nyc :
  snd (run (@handle scripted (ToolForecast args_nyc))
           [Responded 200 (Some grid_document);
            Responded 200 (Some forecast_document)])
  = [nws_request (VStr "https://api.weather.gov/points/40.7128,-74.0060");
     nws_request (VStr "https://api.weather.gov/gridpoints/OKX/33,35/forecast")].
Proof. reflexivity. Qed.

(** A grid document without locator, on the route and on the tool. *)
Example forecast_without_locator :
  run (@handle scripted (RouteForecast (query_of "40.7128" "-74.0060")))
      [Responded 200 (Some grid_document_without_locator)]
    = (HttpReply (res_status_json 500 (error_body "Failed to get forecast URL")),
       [points_request "40.7128" "-74.0060"])
  /\ run (@handle scripted (ToolForecast args_nyc))
        [Responded 200 (Some grid_document_without_locator)]
    = (ToolReply (Content "Failed to get forecast URL from grid point data"),
       [points_request "40.7128" "-74.0060"]).
Proof. split; reflexivity. Qed.

(** The route keeps the text of its parameters: [0] is a present value, and
    text that is no number goes into the URL as it is. *)
Example forecast_route_takes_text :
  snd (run (@handle scripted (RouteForecast (query_of "0" "abc"))) [])
  = [nws_request (VStr "https://api.weather.gov/points/0,abc")].
Proof. reflexivity. Qed.

Lemma tool_forecast_out_of_range_rejected_witness :
  @handle scripted (ToolForecast args_999) (@start scripted [])
    = (ToolReply InvalidParams, @start scripted [])
  /\ @calls_of scripted (ToolForecast args_999) [] = [].
Proof.
  apply (@tool_forecast_out_of_range_rejected scripted args_999 (num 999) (num 0) []).
  - reflexivity.
  - reflexivity.
  - left. reflexivity.
Defined.

(** C1, the claim as written fails off the tool: the route and the resource
    hand latitude 999 to the provider; one request is started, and the
    answer is the failure of that request, not a rejection of the input. *)
Lemma forecast_range_not_checked_off_the_tool :
  run (@handle scripted (RouteForecast (query_of "999" "0"))) []
    = (HttpReply (res_status_json 500 (error_body
         "Failed to retrieve grid point data for coordinates: 999, 0")),
       [nws_request (VStr "https://api.weather.gov/points/999,0")])
  /\ run (@handle scripted (Resource (forecast_uri "999" "0"))) []
    = (ResourceReply (Thrown "Failed to retrieve weather data"),
       [nws_request (VStr "https://api.weather.gov/points/999,0")]).
Proof. split; reflexivity. Qed.

Lemma tool_forecast_url_has_four_decimals_witness :
  (exists rest : list request,
     @calls_of scripted (ToolForecast args_nyc) [] =
       nws_request (VStr "https://api.weather.gov/points/40.7128,-74.0060") :: rest)
  /\ @is_fixed4 "40.7128" = true
  /\ @is_fixed4 "-74.0060" = true
  /\ points_url_fixed4
       (nws_request (VStr "https://api.weather.gov/points/40.7128,-74.0060")) = true.
Proof.
  apply (@tool_forecast_url_has_four_decimals scripted args_nyc lat_nyc lon_nyc []);
    reflexivity.
Defined.

(** C2, the claim as written fails off the tool: the route and the resource
    put the text of the parameters into the URL as it came. *)
Lemma forecast_url_keeps_input_text_off_the_tool :
  snd (run (@handle scripted (RouteForecast (query_of "40.7" "-74"))) [])
    = [nws_request (VStr "https://api.weather.gov/points/40.7,-74")]
  /\ snd (run (@handle scripted (Resource (forecast_uri "40.7" "-74"))) [])
    = [nws_request (VStr "https://api.weather.gov/points/40.7,-74")]
  /\ points_url_fixed4
       (nws_request (VStr "https://api.weather.gov/points/40.7,-74")) = false.
Proof. repeat split; reflexivity. Qed.



Lemma forecast_chain_short_circuits_witness :
  @calls_of scripted (RouteForecast (query_of "40.7128" "-74.0060"))
     [Responded 503 None; Responded 200 (Some forecast_document)]
  = [points_request "40.7128" "-74.0060"].
Proof.
  apply (@forecast_chain_short_circuits scripted
           (RouteForecast (query_of "40.7128" "-74.0060"))
           [Responded 503 None; Responded 200 (Some forecast_document)]
           (points_request "40.7128" "-74.0060")).
  - reflexivity.
  - left. reflexivity.
Defined.

Lemma alerts_region_case_insensitive_witness :
  @calls_of scripted (RouteAlerts "ca") [Responded 200 (Some empty_alerts_document)]
    = [nws_request (VStr "https://api.weather.gov/alerts?area=CA")]
  /\ @calls_of scripted (RouteAlerts "Ca") [Responded 200 (Some empty_alerts_document)]
      = @calls_of scripted (RouteAlerts "ca") [Responded 200 (Some empty_alerts_document)]
  /\ snd (@handle scripted (RouteAlerts "Ca")
            (@start scripted [Responded 200 (Some empty_alerts_document)]))
      = snd (@handle scripted (RouteAlerts "ca")
               (@start scripted [Responded 200 (Some empty_alerts_document)]))
  /\ (Route = Route ->
      reply_payload (@reply_of scripted (RouteAlerts "Ca")
                       [Responded 200 (Some empty_alerts_document)])
      = reply_payload (@reply_of scripted (RouteAlerts "ca")
                         [Responded 200 (Some empty_alerts_document)])).
Proof.
  apply (@alerts_region_case_insensitive scripted
           (RouteAlerts "ca") (RouteAlerts "Ca") "ca" "Ca"
           [Responded 200 (Some empty_alerts_document)]).
  - reflexivity.
  - reflexivity.
  - reflexivity.
  - reflexivity.
Defined.

Lemma fetch_failures_collapse_witness :
  fst (@makeNWSRequest scripted
         (VStr "https://api.weather.gov/alerts?area=CA")
         (@start scripted [Responded 200 None])) = VNull
  /\ (@reply_of scripted (ToolAlerts (VObj [("state", VStr "ca")]))
        [Responded 404 (Some (VObj []))]
      = ToolReply (Content "Failed to retrieve alerts data")
      /\ @calls_of scripted (ToolAlerts (VObj [("state", VStr "ca")]))
           [Responded 404 (Some (VObj []))]
         = [nws_request (VStr "https://api.weather.gov/alerts?area=CA")])
  /\ @reply_of scripted (RouteForecast (query_of "40.7128" "-74.0060"))
       [Responded 200 (Some grid_document); Rejected]
     = HttpReply (res_status_json 500
         (error_body "Failed to retrieve forecast data")).
Proof.
  destruct (@fetch_failures_collapse scripted) as (H1 & H2 & H3 & _).
  split; [|split].
  - apply (H1 (VStr "https://api.weather.gov/alerts?area=CA")
              (@start scripted [Responded 200 None])).
    reflexivity.
  - apply (H2 (ToolAlerts (VObj [("state", VStr "ca")]))
              [Responded 404 (Some (VObj []))] (@alerts_request scripted "ca"));
      reflexivity.
  - apply (H3 (RouteForecast (query_of "40.7128" "-74.0060"))
              [Responded 200 (Some grid_document); Rejected]
              (points_request "40.7128" "-74.0060")
              (VStr "https://api.weather.gov/gridpoints/OKX/33,35/forecast"));
      reflexivity.
Defined.

Lemma forecast_route_missing_parameter_witness :
  @handle scripted (RouteForecast [("latitude", QStr "40.7128")])
     (@start scripted [Responded 200 (Some grid_document)])
    = (HttpReply (res_status_json 400
         (error_body "Latitude and longitude are required")),
       @start scripted [Responded 200 (Some grid_document)])
  /\ @calls_of scripted (RouteForecast [("latitude", QStr "40.7128")])
       [Responded 200 (Some grid_document)] = [].
Proof.
  apply (@forecast_route_missing_parameter scripted
           [("latitude", QStr "40.7128")]
           [Responded 200 (Some grid_document)]).
  right. reflexivity.
Defined.

Lemma empty_alerts_is_success_witness :
  @reply_of scripted (ToolAlerts (VObj [("state", VStr "ca")]))
     [Responded 200 (Some empty_alerts_document)]
    = ToolReply (Content "No active alerts for CA")
  /\ @reply_of scripted (ToolAlerts (VObj [("state", VStr "ca")]))
       [Responded 200 (Some empty_alerts_document)]
     <> ToolReply (Content "Failed to retrieve alerts data").
Proof.
  apply (@empty_alerts_is_success scripted
           (ToolAlerts (VObj [("state", VStr "ca")]))
           [Responded 200 (Some empty_alerts_document)] []
           "ca" 200 empty_alerts_document).
  - reflexivity.
  - reflexivity.
  - reflexivity.
  - reflexivity.
  - right. reflexivity.
Defined.

Lemma forecast_route_returns_document_witness :
  @handle scripted (RouteForecast (query_of "40.7128" "-74.0060"))
     (@start scripted [Responded 200 (Some grid_document);
                       Responded 200 (Some forecast_document)])
  = (HttpReply {| status := 200; body := forecast_document |},
     {| world := ([] : @World scripted);
        calls := [points_request "40.7128" "-74.0060";
                  nws_request
                    (VStr "https://api.weather.gov/gridpoints/OKX/33,35/forecast")] |}).
Proof.
  apply (@forecast_route_returns_document scripted
           (query_of "40.7128" "-74.0060")
           [Responded 200 (Some grid_document);
            Responded 200 (Some forecast_document)]
           [Responded 200 (Some forecast_document)] []
           (points_request "40.7128" "-74.0060") 200 200
           grid_document
           (VStr "https://api.weather.gov/gridpoints/OKX/33,35/forecast")
           forecast_document); reflexivity.
Defined.

Lemma resource_invalid_read_is_generic_error_witness :
  @handle scripted (Resource "weather-data:?type=radar")
     (@start scripted [Responded 200 (Some grid_document)])
    = (ResourceReply (Thrown "Failed to retrieve weather data"),
       @start scripted [Responded 200 (Some grid_document)])
  /\ @calls_of scripted (Resource "weather-data:?type=radar")
       [Responded 200 (Some grid_document)] = []
  /\ forall (uri' : string) (w' : @World scripted) (r : request),
       @first_request_of scripted (Resource uri') = Some r ->
       fetch_failed (fst (@fetch scripted w' r)) = true ->
       @reply_of scripted (Resource uri') w' =
         ResourceReply (Thrown "Failed to retrieve weather data").
Proof.
  apply (@resource_invalid_read_is_generic_error scripted
           "weather-data:?type=radar" {| searchParams := [("type", "radar")] |}
           [Responded 200 (Some grid_document)]).
  - reflexivity.
  - left. split; discriminate.
Defined.

(* ===================================================================== *)
(** ** Further properties of the handlers *)
(* ===================================================================== *)

Section Beyond.
Context `{RT : Runtime}.

(** *** Calls that are turned down before any fetch *)

Lemma no_request_run (c : call) (w : World) :
  first_request_of c = None ->
  handle c (start w) = (rejected_reply c, start w).
Proof.
  unfold first_request_of.
  destruct c as [state | query | uri | args | args];
    cbn [region_of points_request_of]; try discriminate.
  - intros H. unfold handle, fmap. unfold bind at 1. unfold app_get_forecast.
    destruct (q_truthy (assoc "latitude" query)); cbn [negb orb andb] in *;
      [|reflexivity].
    destruct (q_truthy (assoc "longitude" query)); cbn [negb orb andb] in *;
      [discriminate|reflexivity].
  - intros H. unfold handle, fmap. unfold bind at 1.
    unfold resource_weather_data, rejected_reply.
    destruct (new_URL uri) as [url|]; [|reflexivity].
    unfold read_weather_data.
    destruct (s_is (searchParams_get "type" url) "alerts"
              && s_truthy (searchParams_get "state" url)) eqn:Ha.
    + destruct (searchParams_get "state" url); [discriminate|].
      rewrite andb_false_r in Ha. discriminate.
    + cbn [negb andb] in H.
      destruct (s_is (searchParams_get "type" url) "forecast"
                && s_truthy (searchParams_get "latitude" url)
                && s_truthy (searchParams_get "longitude" url));
        [discriminate|reflexivity].
  - intros H. unfold handle, fmap. unfold bind at 1. unfold tool_get_alerts.
    destruct (schema_state _); [discriminate|reflexivity].
  - intros H. unfold handle, fmap. unfold bind at 1. unfold tool_get_forecast.
    destruct (schema_latitude _); [|reflexivity].
    destruct (schema_longitude _); [discriminate|reflexivity].
Qed.

Lemma js_lt_num (a b : Z) : js_lt (num a) (num b) = (a <? b)%Z.
Proof.
  assert (P : forall z, fin_parts (num z) = Some (z, 0%Z))
    by (intros [| p | p]; reflexivity).
  assert (E : js_lt (num a) (num b) =
              match fin_compare a 0 b 0 with Lt => true | _ => false end).
  { unfold js_lt. rewrite !P. destruct a, b; reflexivity. }
  rewrite E. unfold fin_compare. cbn [Z.min Z.compare Z.sub Z.opp Z.add Z.pow].
  change (2 ^ 0)%Z with 1%Z. rewrite !Z.mul_1_r. unfold Z.ltb.
  destruct (a ?= b)%Z; reflexivity.
Qed.

Lemma within_num (lo hi z : Z) :
  within lo hi (num z) = ((lo <=? z) && (z <=? hi))%Z.
Proof.
  unfold within, js_gt. rewrite !js_lt_num.
  replace (is_nan (num z)) with false by (destruct z; reflexivity).
  cbn [negb andb]. rewrite <- !Z.leb_antisym. reflexivity.
Qed.

(** X3: with whole degrees as arguments, get-forecast starts its grid lookup
    exactly when the latitude is in [-90, 90] and the longitude in
    [-180, 180], bounds included. *)
Theorem tool_forecast_integer_bounds (latitude longitude : Z) (w : World) :
  calls_of (ToolForecast (args_of_integers latitude longitude)) w <> []
  <-> (-90 <= latitude <= 90)%Z /\ (-180 <= longitude <= 180)%Z.
Proof.
  set (args := args_of_integers latitude longitude).
  assert (Hlat : schema_latitude (get_prop "latitude" args)
                 = if ((-90 <=? latitude) && (latitude <=? 90))%Z
                   then Some (num latitude) else None)
    by (change (get_prop "latitude" args) with (Some (VNum (num latitude)));
        unfold schema_latitude;
        rewrite schema_number_within, within_num; reflexivity).
  assert (Hlon : schema_longitude (get_prop "longitude" args)
                 = if ((-180 <=? longitude) && (longitude <=? 180))%Z
                   then Some (num longitude) else None)
    by (change (get_prop "longitude" args) with (Some (VNum (num longitude)));
        unfold schema_longitude;
        rewrite schema_number_within, within_num; reflexivity).
  destruct ((-90 <=? latitude) && (latitude <=? 90))%Z eqn:Blat;
    destruct ((-180 <=? longitude) && (longitude <=? 180))%Z eqn:Blon.
  - split; [intros _; lia|intros _].
    assert (Hr : points_request_of (ToolForecast args)
                 = Some (points_request (toFixed4 (num latitude))
                                        (toFixed4 (num longitude))))
      by (cbn [points_request_of]; rewrite Hlat, Hlon; reflexivity).
    unfold calls_of. rewrite (forecast_run _ w _ Hr). cbv zeta.
    destruct (truthy _); [|discriminate].
    destruct (forecast_locator _) as [u|]; [|discriminate].
    destruct (truthy u); discriminate.
  - split; [intros H|intros [_ H]; lia].
    exfalso. apply H. unfold calls_of.
    rewrite (no_request_run (ToolForecast args)); [reflexivity|].
    unfold first_request_of. cbn [region_of points_request_of].
    rewrite Hlat, Hlon. reflexivity.
  - split; [intros H|intros [H _]; lia].
    exfalso. apply H. unfold calls_of.
    rewrite (no_request_run (ToolForecast args)); [reflexivity|].
    unfold first_request_of. cbn [region_of points_request_of].
    rewrite Hlat. reflexivity.
  - split; [intros H|intros [H _]; lia].
    exfalso. apply H. unfold calls_of.
    rewrite (no_request_run (ToolForecast args)); [reflexivity|].
    unfold first_request_of. cbn [region_of points_request_of].
    rewrite Hlat. reflexivity.
Qed.

(** X4: GET /forecast answers 400 exactly when its latitude or its longitude
    is missing or empty; every other value, a zero or text that is no number
    included, goes on to the grid lookup. *)
Theorem forecast_route_400_iff (query : list (string * qvalue)) (w : World) :
  (reply_of (RouteForecast query) w =
     HttpReply (res_status_json 400
       (error_body "Latitude and longitude are required"))
   <-> q_truthy (assoc "latitude" query) = false
       \/ q_truthy (assoc "longitude" query) = false)
  /\ (calls_of (RouteForecast query) w = []
      <-> q_truthy (assoc "latitude" query) = false
          \/ q_truthy (assoc "longitude" query) = false).
Proof.
  destruct (points_request_of (RouteForecast query)) as [r|] eqn:Hr.
  - assert (Hq : q_truthy (assoc "latitude" query) = true
                 /\ q_truthy (assoc "longitude" query) = true).
    { cbn [points_request_of] in Hr.
      destruct (q_truthy (assoc "latitude" query)); [|discriminate].
      destruct (q_truthy (assoc "longitude" query)); [auto|discriminate]. }
    destruct Hq as [Hlat Hlon]. rewrite Hlat, Hlon.
    unfold reply_of, calls_of. rewrite (forecast_run _ w r Hr). cbv zeta.
    split; (split; [|intros [?|?]; discriminate]).
    + destruct (truthy _); [|discriminate].
      destruct (forecast_locator _) as [u|]; [|discriminate].
      destruct (truthy u); [|discriminate].
      destruct (truthy _); discriminate.
    + destruct (truthy _); [|discriminate].
      destruct (forecast_locator _) as [u|]; [|discriminate].
      destruct (truthy u); discriminate.
  - assert (Hq : q_truthy (assoc "latitude" query) = false
                 \/ q_truthy (assoc "longitude" query) = false).
    { cbn [points_request_of] in Hr.
      destruct (q_truthy (assoc "latitude" query)); [|auto].
      destruct (q_truthy (assoc "longitude" query)); [discriminate|auto]. }
    unfold reply_of, calls_of.
    rewrite (no_request_run (RouteForecast query) w Hr).
    split; split; auto.
Qed.

(** X5: on every surface, when the grid lookup gives a locator and the
    forecast fetch gives a document, the second request is the locator as
    the provider gave it, and the reply carries that document: as the body
    on the route, as text after [Forecast for ...] on the tool, as the text
    of the contents on the resource. *)
Theorem forecast_success_on_every_surface
    (c : call) (w w1 w2 : World) (r : request)
    (st1 st2 : nat) (pointsData forecastUrl forecastData : value) :
  points_request_of c = Some r ->
  fetch w r = (Responded st1 (Some pointsData), w1) ->
  ok st1 = true ->
  truthy pointsData = true ->
  forecast_locator pointsData = Some forecastUrl ->
  truthy forecastUrl = true ->
  fetch w1 (nws_request forecastUrl) = (Responded st2 (Some forecastData), w2) ->
  ok st2 = true ->
  truthy forecastData = true ->
  handle c (start w) =
    (forecast_reply c forecastData,
     {| world := w2; calls := [r; nws_request forecastUrl] |}).
Proof.
  intros Hr H1 Hok1 Hp Hloc Hu H2 Hok2 Hd.
  rewrite (forecast_run c w r Hr). cbv zeta.
  rewrite H1. cbn [fst snd]. rewrite (nws_result_ok _ _ Hok1), Hp, Hloc, Hu.
  rewrite H2. cbn [fst snd]. rewrite (nws_result_ok _ _ Hok2), Hd.
  reflexivity.
Qed.

(** X6: the get-alerts tool, given a document whose [features] is an array
    with at least one element, answers [Active alerts for XX:], a blank
    line and the whole document as text, after its single request. *)
Theorem tool_alerts_lists_active_alerts
    (args : value) (state : string) (w w' : World) (st : nat)
    (doc first : value) (others : list value) :
  schema_state (get_prop "state" args) = Some state ->
  fetch w (alerts_request state) = (Responded st (Some doc), w') ->
  ok st = true ->
  get_prop "features" doc = Some (VArr (first :: others)) ->
  handle (ToolAlerts args) (start w) =
    (ToolReply (Content
       ("Active alerts for " ++ toUpperCase state ++ ":"
          ++ String "010" (String "010" (JSON_stringify doc)))),
     {| world := w'; calls := [alerts_request state] |}).
Proof.
  intros Hs Hf Hok Hfeat.
  rewrite (alerts_run (ToolAlerts args) w state Hs). cbv zeta.
  rewrite Hf. cbn [fst snd]. rewrite (nws_result_ok _ _ Hok).
  assert (Hdoc : truthy doc = true)
    by (destruct doc; try discriminate; reflexivity).
  rewrite Hdoc. cbn [alerts_reply]. rewrite Hs.
  unfold features_or_empty. rewrite Hfeat. reflexivity.
Qed.

(** X7: whatever the call and whatever the provider answers, a call starts
    at most two requests, an alerts call at most one, and every request
    carries the two fixed headers. *)
Theorem calls_are_bounded (c : call) (w : World) :
  List.length (calls_of c w) <= 2
  /\ (points_request_of c = None -> List.length (calls_of c w) <= 1)
  /\ Forall (fun r : request =>
               req_headers r =
                 [("User-Agent", "weather-app/1.0");
                  ("Accept", "application/geo+json")])
            (calls_of c w).
Proof.
  unfold calls_of.
  destruct (first_request_of c) as [r|] eqn:Hfirst.
  - pose proof (first_request_shape c r Hfirst) as Er.
    assert (Hh : req_headers r =
                 [("User-Agent", "weather-app/1.0");
                  ("Accept", "application/geo+json")])
      by (rewrite <- Er; reflexivity).
    unfold first_request_of in Hfirst.
    destruct (region_of c) as [region|] eqn:Hreg.
    + injection Hfirst as <-. rewrite (alerts_run c w region Hreg).
      cbn [snd calls List.length]. repeat split; auto.
    + rewrite (forecast_run c w r Hfirst). cbv zeta.
      destruct (truthy _);
        [|cbn [snd calls List.length]; repeat split; auto; intros; congruence].
      destruct (forecast_locator _) as [u|];
        [|cbn [snd calls List.length]; repeat split; auto; intros; congruence].
      destruct (truthy u); cbn [snd calls List.length]; repeat split; auto;
        intros; congruence.
  - rewrite (no_request_run c w Hfirst). cbn [snd start calls List.length].
    repeat split; auto.
Qed.

(** *** The shape of the replies *)

Lemma truthy_not_null (v : value) : truthy v = true -> v <> VNull.
Proof. intros H ->. discriminate. Qed.

Lemma alerts_document_sent (c : call) (w : World) (region : string) :
  region_of c = Some region ->
  truthy (nws_result (fst (fetch w (alerts_request region)))) = true ->
  sent_by_provider c w (nws_result (fst (fetch w (alerts_request region)))).
Proof.
  intros Hreg Ht.
  destruct (nws_result_not_null _ (truthy_not_null _ Ht)) as (st & Hok & E).
  exists st, (alerts_request region), w. repeat split; [exact Hok|exact E|].
  left. split; [|reflexivity].
  unfold calls_of. rewrite (alerts_run c w region Hreg). reflexivity.
Qed.

Lemma forecast_document_sent
    (c : call) (w : World) (r : request) (forecastUrl : value) :
  points_request_of c = Some r ->
  truthy (nws_result (fst (fetch w r))) = true ->
  forecast_locator (nws_result (fst (fetch w r))) = Some forecastUrl ->
  truthy forecastUrl = true ->
  truthy (nws_result
            (fst (fetch (snd (fetch w r)) (nws_request forecastUrl)))) = true ->
  sent_by_provider c w
    (nws_result (fst (fetch (snd (fetch w r)) (nws_request forecastUrl)))).
Proof.
  intros Hr Hp Hloc Hu Ht.
  destruct (nws_result_not_null _ (truthy_not_null _ Ht)) as (st & Hok & E).
  exists st, (nws_request forecastUrl), (snd (fetch w r)).
  repeat split; [exact Hok|exact E|].
  right. exists r. split; [|reflexivity].
  unfold calls_of. rewrite (forecast_run c w r Hr). cbv zeta.
  rewrite Hp, Hloc, Hu. reflexivity.
Qed.


(** X11: a route answers with one of three statuses.  200 comes with the
    document the provider sent to the last request of the call, as body;
    400 is the answer of GET /forecast to a missing parameter and comes
    before any request; everything else is 500 with a body
    [{ error: message }]. *)
Theorem route_reply_shape (c : call) (w : World) :
  surface_of c = Route ->
  exists r : http_response,
    reply_of c w = HttpReply r
    /\ ((status r = 200 /\ truthy (body r) = true
         /\ sent_by_provider c w (body r))
        \/ (status r = 400 /\ calls_of c w = []
            /\ body r = error_body "Latitude and longitude are required")
        \/ (status r = 500 /\ exists message : string,
                                body r = error_body message)).
Proof.
  intros Hc.
  assert (Herr : forall message : string,
            reply_of c w = HttpReply (res_status_json 500 (error_body message)) ->
            exists r : http_response,
              reply_of c w = HttpReply r
              /\ ((status r = 200 /\ truthy (body r) = true
                   /\ sent_by_provider c w (body r))
                  \/ (status r = 400 /\ calls_of c w = []
                      /\ body r = error_body "Latitude and longitude are required")
                  \/ (status r = 500 /\ exists message : string,
                                          body r = error_body message))).
  { intros message E. eexists. split; [exact E|]. right; right.
    split; [reflexivity|]. exists message. reflexivity. }
  assert (Hdoc : forall data : value,
            truthy data = true -> sent_by_provider c w data ->
            reply_of c w = HttpReply (res_json data) ->
            exists r : http_response,
              reply_of c w = HttpReply r
              /\ ((status r = 200 /\ truthy (body r) = true
                   /\ sent_by_provider c w (body r))
                  \/ (status r = 400 /\ calls_of c w = []
                      /\ body r = error_body "Latitude and longitude are required")
                  \/ (status r = 500 /\ exists message : string,
                                          body r = error_body message))).
  { intros data Ht Hs E. eexists. split; [exact E|]. left.
    repeat split; assumption. }
  destruct (first_request_of c) as [r|] eqn:Hfirst.
  - unfold first_request_of in Hfirst.
    destruct (region_of c) as [region|] eqn:Hreg.
    + destruct c as [state | query | uri | args | args]; try discriminate.
      destruct (truthy (nws_result (fst (fetch w (alerts_request region)))))
        eqn:Ht.
      * apply (Hdoc _ Ht (alerts_document_sent _ w region Hreg Ht)).
        unfold reply_of. rewrite (alerts_run _ w region Hreg). cbv zeta.
        rewrite Ht. reflexivity.
      * eapply Herr. unfold reply_of.
        rewrite (alerts_run _ w region Hreg). cbv zeta. rewrite Ht.
        reflexivity.
    + destruct c as [state | query | uri | args | args]; try discriminate.
      destruct (truthy (nws_result (fst (fetch w r)))) eqn:Hp;
        [|eapply Herr; unfold reply_of; rewrite (forecast_run _ w r Hfirst);
          cbv zeta; rewrite Hp; reflexivity].
      destruct (forecast_locator (nws_result (fst (fetch w r))))
        as [u|] eqn:Hloc;
        [|eapply Herr; unfold reply_of; rewrite (forecast_run _ w r Hfirst);
          cbv zeta; rewrite Hp, Hloc; reflexivity].
      destruct (truthy u) eqn:Hu;
        [|eapply Herr; unfold reply_of; rewrite (forecast_run _ w r Hfirst);
          cbv zeta; rewrite Hp, Hloc, Hu; reflexivity].
      destruct (truthy (nws_result
                  (fst (fetch (snd (fetch w r)) (nws_request u))))) eqn:Ht.
      * apply (Hdoc _ Ht (forecast_document_sent _ w r u Hfirst Hp Hloc Hu Ht)).
        unfold reply_of. rewrite (forecast_run _ w r Hfirst). cbv zeta.
        rewrite Hp, Hloc, Hu, Ht. reflexivity.
      * eapply Herr. unfold reply_of.
        rewrite (forecast_run _ w r Hfirst). cbv zeta.
        rewrite Hp, Hloc, Hu, Ht. reflexivity.
  - destruct c as [state | query | uri | args | args]; try discriminate.
    eexists. split.
    + unfold reply_of. rewrite (no_request_run _ w Hfirst). reflexivity.
    + right; left. unfold calls_of. rewrite (no_request_run _ w Hfirst).
      repeat split.
Qed.

(** X14: a response with a success status whose body is a falsy JSON value
    ([null], [false], [0], the empty string) is answered on every surface
    like a failed fetch, after that single request. *)
Theorem falsy_document_is_a_failure
    (c : call) (w w' : World) (r : request) (st : nat) (v : value) :
  first_request_of c = Some r ->
  fetch w r = (Responded st (Some v), w') ->
  truthy v = false ->
  handle c (start w) =
    (no_data_reply c true, {| world := w'; calls := [r] |}).
Proof.
  intros Hr Hf Hv.
  assert (Hn : truthy (nws_result (fst (fetch w r))) = false).
  { rewrite Hf. cbn [fst nws_result].
    destruct (ok st); cbn [negb]; [exact Hv|reflexivity]. }
  unfold first_request_of in Hr.
  destruct (region_of c) as [region|] eqn:Hreg.
  - injection Hr as <-. rewrite (alerts_run c w region Hreg). cbv zeta.
    rewrite Hn, Hf. reflexivity.
  - rewrite (forecast_run c w r Hr). cbv zeta. rewrite Hn, Hf. reflexivity.
Qed.

(** *** The surfaces against each other *)

Lemma same_lookup_same_requests (c1 c2 : call) (w : World) (r : request) :
  points_request_of c1 = Some r -> points_request_of c2 = Some r ->
  snd (handle c1 (start w)) = snd (handle c2 (start w)).
Proof.
  intros H1 H2. rewrite (forecast_run c1 w r H1), (forecast_run c2 w r H2).
  cbv zeta.
  destruct (truthy _); [|reflexivity].
  destruct (forecast_locator _) as [u|]; [|reflexivity].
  destruct (truthy u); reflexivity.
Qed.


Lemma is_fixed4_not_empty (s : string) : is_fixed4 s = true -> s <> EmptyString.
Proof. destruct s; [discriminate|discriminate]. Qed.

(** X13: the get-forecast tool, given coordinates in range, does what
    GET /forecast does when it is given those coordinates written with four
    decimals: the same requests, the same state of the provider. *)
Theorem tool_agrees_with_route_on_rounded_text
    (args : value) (latitude longitude : number) (w : World) :
  get_prop "latitude" args = Some (VNum latitude) ->
  get_prop "longitude" args = Some (VNum longitude) ->
  within (-90) 90 latitude = true ->
  within (-180) 180 longitude = true ->
  snd (handle (ToolForecast args) (start w)) =
  snd (handle (RouteForecast
                 [("latitude", QStr (toFixed4 latitude));
                  ("longitude", QStr (toFixed4 longitude))]) (start w)).
Proof.
  intros Elat Elon Wlat Wlon.
  assert (Hlat : schema_latitude (get_prop "latitude" args) = Some latitude)
    by (rewrite Elat; unfold schema_latitude;
        rewrite schema_number_within, Wlat; reflexivity).
  assert (Hlon : schema_longitude (get_prop "longitude" args) = Some longitude)
    by (rewrite Elon; unfold schema_longitude;
        rewrite schema_number_within, Wlon; reflexivity).
  destruct (toFixed4_in_range 90 _ _ eq_refl Hlat) as [Flat _].
  destruct (toFixed4_in_range 180 _ _ eq_refl Hlon) as [Flon _].
  apply (same_lookup_same_requests _ _ w
           (points_request (toFixed4 latitude) (toFixed4 longitude))).
  - cbn [points_request_of]. rewrite Hlat, Hlon. reflexivity.
  - cbn [points_request_of assoc String.eqb Ascii.eqb Bool.eqb].
    pose proof (is_fixed4_not_empty _ Flat) as Nlat.
    pose proof (is_fixed4_not_empty _ Flon) as Nlon.
    cbn [q_truthy q_template q_text].
    destruct (toFixed4 latitude); [congruence|].
    destruct (toFixed4 longitude); [congruence|]. reflexivity.
Qed.

End Beyond.

(* ===================================================================== *)
(** ** Further properties on sample calls *)
(* ===================================================================== *)

Lemma tool_forecast_integer_bounds_witness :
  @calls_of scripted (ToolForecast (args_of_integers 90 (-180))) [] <> []
  /\ ~ (@calls_of scripted (ToolForecast (args_of_integers 91 0)) [] <> []).
Proof.
  split.
  - apply (proj2 (@tool_forecast_integer_bounds scripted 90 (-180) [])). lia.
  - intros H.
    apply (proj1 (@tool_forecast_integer_bounds scripted 91 0 [])) in H. lia.
Defined.

Lemma forecast_route_400_iff_witness :
  @reply_of scripted (RouteForecast (query_of EmptyString "-74.0060")) []
  = HttpReply (res_status_json 400
      (error_body "Latitude and longitude are required"))
  /\ @calls_of scripted (RouteForecast (query_of "0" "abc")) [] <> [].
Proof.
  split.
  - apply (proj2 (proj1 (@forecast_route_400_iff scripted
                           (query_of EmptyString "-74.0060") []))).
    left. reflexivity.
  - intros H.
    apply (proj1 (proj2 (@forecast_route_400_iff scripted
                           (query_of "0" "abc") []))) in H.
    destruct H; discriminate.
Defined.

Lemma forecast_success_on_every_surface_witness :
  @handle scripted (ToolForecast args_nyc)
     (@start scripted [Responded 200 (Some grid_document);
                       Responded 200 (Some forecast_document)])
  = (@forecast_reply scripted (ToolForecast args_nyc) forecast_document,
     {| world := ([] : @World scripted);
        calls := [points_request "40.7128" "-74.0060";
                  nws_request
                    (VStr "https://api.weather.gov/gridpoints/OKX/33,35/forecast")] |}).
Proof.
  apply (@forecast_success_on_every_surface scripted
           (ToolForecast args_nyc)
           [Responded 200 (Some grid_document);
            Responded 200 (Some forecast_document)]
           [Responded 200 (Some forecast_document)] []
           (points_request "40.7128" "-74.0060") 200 200
           grid_document
           (VStr "https://api.weather.gov/gridpoints/OKX/33,35/forecast")
           forecast_document); reflexivity.
Defined.

Lemma tool_alerts_lists_active_alerts_witness :
  @handle scripted (ToolAlerts (VObj [("state", VStr "ny")]))
     (@start scripted
        [Responded 200 (Some (VObj [("features", VArr [VObj []])]))])
  = (ToolReply (Content
       ("Active alerts for NY:" ++ String "010" (String "010"
          (@JSON_stringify scripted (VObj [("features", VArr [VObj []])]))))),
     {| world := ([] : @World scripted); calls := [@alerts_request scripted "ny"] |}).
Proof.
  apply (@tool_alerts_lists_active_alerts scripted
           (VObj [("state", VStr "ny")]) "ny"
           [Responded 200 (Some (VObj [("features", VArr [VObj []])]))] []
           200 (VObj [("features", VArr [VObj []])]) (VObj []) []);
    reflexivity.
Defined.

Lemma calls_are_bounded_witness :
  List.length (@calls_of scripted (ToolAlerts (VObj [("state", VStr "ca")]))
                 [Responded 200 (Some grid_document);
                  Responded 200 (Some forecast_document)]) <= 1.
Proof.
  apply (proj1 (proj2 (@calls_are_bounded scripted
                         (ToolAlerts (VObj [("state", VStr "ca")]))
                         [Responded 200 (Some grid_document);
                          Responded 200 (Some forecast_document)]))).
  reflexivity.
Defined.

Lemma route_reply_shape_witness :
  exists r : http_response,
    @reply_of scripted (RouteAlerts "ca")
       [Responded 200 (Some empty_alerts_document)] = HttpReply r
    /\ ((status r = 200 /\ truthy (body r) = true
         /\ @sent_by_provider scripted (RouteAlerts "ca")
              [Responded 200 (Some empty_alerts_document)] (body r))
        \/ (status r = 400
            /\ @calls_of scripted (RouteAlerts "ca")
                 [Responded 200 (Some empty_alerts_document)] = []
            /\ body r = error_body "Latitude and longitude are required")
        \/ (status r = 500 /\ exists message : string,
                                body r = error_body message)).
Proof.
  apply (@route_reply_shape scripted (RouteAlerts "ca")
           [Responded 200 (Some empty_alerts_document)]).
  reflexivity.
Defined.

Lemma falsy_document_is_a_failure_witness :
  @handle scripted (RouteAlerts "ca") (@start scripted [Responded 200 (Some VNull)])
  = (HttpReply (res_status_json 500 (error_body "Failed to retrieve alerts data")),
     {| world := ([] : @World scripted); calls := [@alerts_request scripted "ca"] |}).
Proof.
  apply (@falsy_document_is_a_failure scripted (RouteAlerts "ca")
           [Responded 200 (Some VNull)] [] (@alerts_request scripted "ca") 200 VNull);
    reflexivity.
Defined.


Lemma tool_agrees_with_route_on_rounded_text_witness :
  snd (@handle scripted (ToolForecast args_nyc)
         (@start scripted [Responded 200 (Some grid_document)]))
  = snd (@handle scripted (RouteForecast (query_of "40.7128" "-74.0060"))
           (@start scripted [Responded 200 (Some grid_document)])).
Proof.
  apply (@tool_agrees_with_route_on_rounded_text scripted
           args_nyc lat_nyc lon_nyc [Responded 200 (Some grid_document)]);
    reflexivity.
Defined.
